(** * MatterTune: the MPTraj dataset loader ([mattertune/data/mptraj.py])

    A shallow embedding of [MPTrajDatasetConfig] and [MPTrajDataset]: the
    configuration record, the conversion of a raw record into an [Atoms]
    object carrying a single-point calculator, the inclusion filter, the
    eager build loop of [__init__] and the two sequence methods
    [__getitem__] and [__len__].

    Python exceptions are values of [PyError] and fallible code lives in the
    error monad [result].  numpy arrays are kept with the rank the upstream
    schema gives them; float64 entries are represented by rationals. *)

From Stdlib Require Import QArith.
From stdpp Require Import gmap strings list.

Local Open Scope Z_scope.

(** ** Python exceptions and the error monad *)

Inductive PyError : Type :=
  | KeyError (key : string)
  | IndexError
  | ValueError
  | TypeError
  | ValidationError
  | SourceError (msg : string).

#[global] Instance PyError_eq_dec : EqDecision PyError.
Proof. solve_decision. Defined.

Definition result (A : Type) : Type := PyError + A.

Definition ok {A} (x : A) : result A := inr x.
Definition raise {A} (e : PyError) : result A := inl e.

Definition bind {A B} (m : result A) (k : A → result B) : result B :=
  match m with
  | inl e => inl e
  | inr x => k x
  end.

Notation "'let*' x := m 'in' k" := (bind m (fun x => k))
  (at level 10, x name, m at level 100, k at level 200, only parsing).

Definition ok_or {A} (e : PyError) (o : option A) : result A :=
  match o with
  | Some x => ok x
  | None => raise e
  end.

(** ** Python sequence indexing

    [l[idx]] on a Python list: a non-negative index counts from the front, a
    negative one from the back, and anything outside [-len, len) raises
    [IndexError]. *)

Definition py_getitem {A} (l : list A) (idx : Z) : result A :=
  let n := Z.of_nat (length l) in
  if bool_decide (0 ≤ idx < n) then
    match l !! Z.to_nat idx with
    | Some x => ok x
    | None => raise IndexError
    end
  else if bool_decide (- n ≤ idx < 0) then
    match l !! Z.to_nat (n + idx) with
    | Some x => ok x
    | None => raise IndexError
    end
  else raise IndexError.

(** ** Python dict indexing: [d[key]] raises [KeyError(key)] when absent. *)

Definition dict_getitem {V} (d : gmap string V) (key : string) : result V :=
  match d !! key with
  | Some v => ok v
  | None => raise (KeyError key)
  end.

(** ** numpy values

    The dataset is put in numpy format, so every field of a raw record is a
    numpy value.  Only the ranks that occur upstream are represented. *)

Inductive ndarray : Type :=
  | NdFloat0 (x : Q)
  | NdFloat1 (v : list Q)
  | NdFloat2 (m : list (list Q))
  | NdInt1 (v : list Z).

(** [a.item()]: the single element of a size-one array, [ValueError]
    otherwise. *)
Definition item (a : ndarray) : result Q :=
  match a with
  | NdFloat0 x => ok x
  | NdFloat1 [x] => ok x
  | NdFloat2 [[x]] => ok x
  | NdInt1 [z] => ok (inject_Z z)
  | _ => raise ValueError
  end.

(** [m[i, j]] on a two-dimensional array, with non-negative literal indices. *)
Definition mat_get (m : list (list Q)) (i j : nat) : result Q :=
  match m !! i with
  | Some row =>
      match row !! j with
      | Some x => ok x
      | None => raise IndexError
      end
  | None => raise IndexError
  end.

(** ** Configuration *)

Inductive Split : Type := train | val | test.

Record MPTrajDatasetConfig : Type := {
  split : Split;
  min_num_atoms : option Z;
  max_num_atoms : option Z;
  elements : option (list string)
}.

(** The field defaults of the class body. *)
Definition default_config : MPTrajDatasetConfig :=
  {| split := train;
     min_num_atoms := Some 5;
     max_num_atoms := None;
     elements := None |}.

(** Construction of a configuration from its four fields.  The class body
    declares the fields and their types and no validator over them: the type
    constraints are carried by the argument types, and nothing else is
    checked, so construction returns the record. *)
Definition MPTrajDatasetConfig_init
    (split : Split) (min_num_atoms max_num_atoms : option Z)
    (elements : option (list string)) : result MPTrajDatasetConfig :=
  ok {| split := split;
        min_num_atoms := min_num_atoms;
        max_num_atoms := max_num_atoms;
        elements := elements |}.

(** ** The structure container ([ase.Atoms]) and its calculator

    [ase] is an external library; the parts the loader relies on are
    represented here: the constructor with the length and shape checks of
    [Atoms.new_array] and [Cell.new], [len(atoms)], the symbol table behind
    [get_chemical_symbols] and the result store of [SinglePointCalculator]. *)

Record SinglePointCalculator : Type := {
  energy : Q;
  forces : ndarray;
  stress : list Q
}.

Record Atoms : Type := {
  numbers : list Z;
  positions : list (list Q);
  cell : ndarray;
  pbc : bool;
  calc : option SinglePointCalculator
}.

(** [np.array(numbers, int)] followed by the one-dimensionality check. *)
Definition as_numbers (a : ndarray) : result (list Z) :=
  match a with
  | NdInt1 v => ok v
  | NdFloat1 v => ok ((fun q : Q => Z.quot (Qnum q) (Z.pos (Qden q))) <$> v)
  | NdFloat0 _ | NdFloat2 _ => raise ValueError
  end.

(** The lattice argument is accepted in the three forms [Cell.new] knows:
    three lengths, six cell parameters, or a 3x3 matrix. *)
Definition check_cell (a : ndarray) : result ndarray :=
  match a with
  | NdFloat2 m =>
      if bool_decide (length m = 3%nat) && forallb (fun r => bool_decide (length r = 3%nat)) m
      then ok a else raise ValueError
  | NdFloat1 v =>
      if bool_decide (length v = 3%nat) || bool_decide (length v = 6%nat)
      then ok a else raise ValueError
  | NdInt1 v =>
      if bool_decide (length v = 3%nat) || bool_decide (length v = 6%nat)
      then ok a else raise ValueError
  | NdFloat0 _ => raise ValueError
  end.

(** [new_array('positions', positions, float, (3,))]: the array must be as
    long as [numbers] and every row must have three entries. *)
Definition as_positions (n : nat) (a : ndarray) : result (list (list Q)) :=
  match a with
  | NdFloat2 m =>
      if negb (bool_decide (length m = n)) then raise ValueError
      else if forallb (fun r => bool_decide (length r = 3%nat)) m then ok m
      else raise ValueError
  | NdFloat1 v =>
      if negb (bool_decide (length v = n)) then raise ValueError
      else match v with [] => ok [] | _ => raise ValueError end
  | NdInt1 v =>
      if negb (bool_decide (length v = n)) then raise ValueError
      else match v with [] => ok [] | _ => raise ValueError end
  | NdFloat0 _ => raise TypeError
  end.

Definition Atoms_init (positions numbers cell : ndarray) (pbc : bool) : result Atoms :=
  let* ns := as_numbers numbers in
  let* c := check_cell cell in
  let* ps := as_positions (length ns) positions in
  ok {| numbers := ns; positions := ps; cell := c; pbc := pbc; calc := None |}.

(** [len(atoms)] *)
Definition len (atoms : Atoms) : Z := Z.of_nat (length (numbers atoms)).

(** [ase.data.chemical_symbols]: index = atomic number, index 0 is the
    placeholder [X]. *)
Definition chemical_symbols : list string :=
  ["X"; "H"; "He"; "Li"; "Be"; "B"; "C"; "N"; "O"; "F"; "Ne";
   "Na"; "Mg"; "Al"; "Si"; "P"; "S"; "Cl"; "Ar"; "K"; "Ca";
   "Sc"; "Ti"; "V"; "Cr"; "Mn"; "Fe"; "Co"; "Ni"; "Cu"; "Zn";
   "Ga"; "Ge"; "As"; "Se"; "Br"; "Kr"; "Rb"; "Sr"; "Y"; "Zr";
   "Nb"; "Mo"; "Tc"; "Ru"; "Rh"; "Pd"; "Ag"; "Cd"; "In"; "Sn";
   "Sb"; "Te"; "I"; "Xe"; "Cs"; "Ba"; "La"; "Ce"; "Pr"; "Nd";
   "Pm"; "Sm"; "Eu"; "Gd"; "Tb"; "Dy"; "Ho"; "Er"; "Tm"; "Yb";
   "Lu"; "Hf"; "Ta"; "W"; "Re"; "Os"; "Ir"; "Pt"; "Au"; "Hg";
   "Tl"; "Pb"; "Bi"; "Po"; "At"; "Rn"; "Fr"; "Ra"; "Ac"; "Th";
   "Pa"; "U"; "Np"; "Pu"; "Am"; "Cm"; "Bk"; "Cf"; "Es"; "Fm";
   "Md"; "No"; "Lr"; "Rf"; "Db"; "Sg"; "Bh"; "Hs"; "Mt"; "Ds";
   "Rg"; "Cn"; "Nh"; "Fl"; "Mc"; "Lv"; "Ts"; "Og"]%string.

(** [[f(x) for x in l]] where [f] may raise: the first failure wins. *)
Fixpoint traverse {A B} (f : A → result B) (l : list A) : result (list B) :=
  match l with
  | [] => ok []
  | x :: l' =>
      let* y := f x in
      let* ys := traverse f l' in
      ok (y :: ys)
  end.

(** [atoms.get_chemical_symbols()]:
    [[chemical_symbols[Z] for Z in self.arrays['numbers']]] *)
Definition get_chemical_symbols (atoms : Atoms) : result (list string) :=
  traverse (py_getitem chemical_symbols) (numbers atoms).

(** [np.array(value, float)] as applied to the stored forces. *)
Definition as_float (a : ndarray) : ndarray :=
  match a with
  | NdInt1 v => NdFloat1 (inject_Z <$> v)
  | _ => a
  end.

(** [SinglePointCalculator(atoms, energy=, forces=, stress=)] stores the
    three results; it compares no shape with the structure. *)
Definition SinglePointCalculator_init
    (atoms : Atoms) (energy : Q) (forces : ndarray) (stress : list Q)
  : SinglePointCalculator :=
  {| energy := energy; forces := as_float forces; stress := stress |}.

(** Modelled from the spec: [full_3x3_to_voigt_6_stress] is imported from
    [ase.stress] and is not part of the sources.  It flattens the 3x3 stress
    tensor into six components in the order (xx, yy, zz, yz, xz, xy); each
    off-diagonal component is the mean of the two mirrored entries, which on
    the symmetric tensors the flattening is meant for is the entry itself.
    Symmetry of the input is not checked. *)
Definition full_3x3_to_voigt_6_stress (a : ndarray) : result (list Q) :=
  match a with
  | NdFloat2 m =>
      let* xx := mat_get m 0 0 in
      let* yy := mat_get m 1 1 in
      let* zz := mat_get m 2 2 in
      let* yz := mat_get m 1 2 in
      let* zy := mat_get m 2 1 in
      let* xz := mat_get m 0 2 in
      let* zx := mat_get m 2 0 in
      let* xy := mat_get m 0 1 in
      let* yx := mat_get m 1 0 in
      ok [xx; yy; zz; ((yz + zy) / 2)%Q; ((xz + zx) / 2)%Q; ((xy + yx) / 2)%Q]
  | _ => raise IndexError
  end.

(** ** The progress bar ([tqdm]): a counter the loop advances. *)

Record tqdm : Type := {
  total : nat;
  n : nat;
  closed : bool
}.

Definition tqdm_new {A} (iterable : list A) : tqdm :=
  {| total := length iterable; n := 0; closed := false |}.

Definition update (k : nat) (pbar : tqdm) : tqdm :=
  {| total := total pbar; n := (n pbar + k)%nat; closed := closed pbar |}.

Definition close (pbar : tqdm) : tqdm :=
  {| total := total pbar; n := n pbar; closed := true |}.

(** ** The dataset *)

(** A raw record, after [dict(entry)]. *)
Abbreviation Entry := (gmap string ndarray).

(** The external source: [datasets.load_dataset(path, split=...)] either
    raises or yields the records of the split in its iteration order. *)
Abbreviation Source := (string → Split → result (list Entry)).

Record MPTrajDataset : Type := {
  config : MPTrajDatasetConfig;
  atoms_list : list Atoms
}.

Definition set_calc (calc : SinglePointCalculator) (atoms : Atoms) : Atoms :=
  {| numbers := numbers atoms; positions := positions atoms;
     cell := cell atoms; pbc := pbc atoms; calc := Some calc |}.

Definition _load_atoms_from_entry (entry : Entry) : result Atoms :=
  let* positions := dict_getitem entry "positions" in
  let* numbers := dict_getitem entry "numbers" in
  let* cell := dict_getitem entry "cell" in
  let* atoms := Atoms_init positions numbers cell true in
  let* e := dict_getitem entry "corrected_total_energy" in
  let* energy := item e in
  let* forces := dict_getitem entry "forces" in
  let* s := dict_getitem entry "stress" in
  let* stress := full_3x3_to_voigt_6_stress s in
  let calc := SinglePointCalculator_init atoms energy forces stress in
  ok (set_calc calc atoms).

Definition _filter_atoms (config : MPTrajDatasetConfig) (atoms : Atoms) : result bool :=
  if match min_num_atoms config with
     | Some m => bool_decide (len atoms < m)
     | None => false
     end
  then ok false
  else if match max_num_atoms config with
          | Some M => bool_decide (len atoms > M)
          | None => false
          end
  then ok false
  else match elements config with
       | Some E =>
           let* symbols := get_chemical_symbols atoms in
           let elements : gset string := list_to_set symbols in
           if negb (bool_decide (elements ⊆ list_to_set E)) then ok false
           else ok true
       | None => ok true
       end.

(** A structure passes when the filter returns [True]. *)
Definition passes (config : MPTrajDatasetConfig) (atoms : Atoms) : Prop :=
  _filter_atoms config atoms = ok true.

#[global] Instance passes_dec config atoms : Decision (passes config atoms).
Proof. unfold passes, result, ok. apply _. Defined.

(** The body of the [for entry in dataset] loop, threaded through the two
    pieces of state it touches: [self.atoms_list] and the progress bar. *)
Fixpoint init_loop (config : MPTrajDatasetConfig) (dataset : list Entry)
    (atoms_list : list Atoms) (pbar : tqdm) : result (list Atoms * tqdm) :=
  match dataset with
  | [] => ok (atoms_list, pbar)
  | entry :: rest =>
      let* atoms := _load_atoms_from_entry entry in
      let* keep := _filter_atoms config atoms in
      let atoms_list := if keep : bool then atoms_list ++ [atoms] else atoms_list in
      init_loop config rest atoms_list (update 1 pbar)
  end.

(** The loop started from a given progress-bar state. *)
Definition build_from (config : MPTrajDatasetConfig) (dataset : list Entry)
    (pbar : tqdm) : result (MPTrajDataset * tqdm) :=
  let* st := init_loop config dataset [] pbar in
  ok ({| config := config; atoms_list := st.1 |}, close st.2).

(** [MPTrajDataset.__init__]: the built object together with the final state
    of the progress bar. *)
Definition __init__ (load_dataset : Source) (config : MPTrajDatasetConfig)
  : result (MPTrajDataset * tqdm) :=
  let* dataset := load_dataset "nimashoghi/mptrj"%string (split config) in
  build_from config dataset (tqdm_new dataset).

(** [create_dataset]: the dataset alone. *)
Definition create_dataset (load_dataset : Source) (config : MPTrajDatasetConfig)
  : result MPTrajDataset :=
  let* r := __init__ load_dataset config in
  ok r.1.

(** The two sequence methods, as transitions of the object: each returns
    its value together with the object after the call. *)
Definition __getitem__ (self : MPTrajDataset) (idx : Z)
  : result Atoms * MPTrajDataset :=
  (py_getitem (atoms_list self) idx, self).

Definition __len__ (self : MPTrajDataset) : Z * MPTrajDataset :=
  (Z.of_nat (length (atoms_list self)), self).

(** ** Sample records

    Small well-formed records used to run the loader: [sample_entry ns] has
    one atom per atomic number in [ns], all forces zero and the stress tensor
    [sample_stress]. *)

Definition sample_stress : list (list Q) :=
  [[1; 6; 5]; [6; 2; 4]; [5; 4; 3]]%Q.

Definition sample_cell : ndarray :=
  NdFloat2 [[10; 0; 0]; [0; 10; 0]; [0; 0; 10]]%Q.

Definition zero_rows (k : nat) : list (list Q) := replicate k [0; 0; 0]%Q.

Definition sample_entry_with (ns : list Z) (forces : ndarray) : Entry :=
  list_to_map
    [("positions", NdFloat2 (zero_rows (length ns)));
     ("numbers", NdInt1 ns);
     ("cell", sample_cell);
     ("corrected_total_energy", NdFloat0 (-7 # 2));
     ("forces", forces);
     ("stress", NdFloat2 sample_stress)]%string.

Definition sample_entry (ns : list Z) : Entry :=
  sample_entry_with ns (NdFloat2 (zero_rows (length ns))).

(** The structure [sample_entry ns] converts to. *)
Definition sample_atoms_with (ns : list Z) (forces : ndarray) : Atoms :=
  {| numbers := ns;
     positions := zero_rows (length ns);
     cell := sample_cell;
     pbc := true;
     calc := Some {| energy := (-7 # 2)%Q;
                     forces := forces;
                     stress := [1; 2; 3; (4 + 4) / 2; (5 + 5) / 2; (6 + 6) / 2]%Q |} |}.

Definition sample_atoms (ns : list Z) : Atoms :=
  sample_atoms_with ns (NdFloat2 (zero_rows (length ns))).

(** Three records with 3 lithium, 5 sodium and 10 oxygen atoms. *)
Definition three_records : list Entry :=
  [sample_entry (replicate 3 3); sample_entry (replicate 5 11);
   sample_entry (replicate 10 8)].


(** A record without its ["forces"] field. *)
Definition no_forces_entry : Entry :=
  delete "forces"%string (sample_entry (replicate 5 3)).

(** The dataset the default configuration builds from [three_records]. *)
Definition three_records_dataset : MPTrajDataset :=
  {| config := default_config;
     atoms_list := [sample_atoms (replicate 5 11);
                    sample_atoms (replicate 10 8)] |}.

(** A configuration restricted to lithium and sodium, without count bounds. *)
Definition li_na_config : MPTrajDatasetConfig :=
  {| split := train; min_num_atoms := None; max_num_atoms := None;
     elements := Some ["Li"; "Na"]%string |}.

(** A source that knows the training split only. *)
Definition train_only_source (records : list Entry) : Source :=
  fun _ sp =>
    match sp with
    | train => ok records
    | _ => raise (SourceError "split not found")
    end.

(** A source serving the same records for every split. *)
Definition constant_source (records : list Entry) : Source :=
  fun _ _ => ok records.

(** ** The build as a function of the records

    What the loop of [__init__] leaves in [self.atoms_list], written by
    recursion on the stream; [init_loop_keep_all] below relates the two. *)

Fixpoint keep_all (config : MPTrajDatasetConfig) (records : list Entry)
  : result (list Atoms) :=
  match records with
  | [] => ok []
  | entry :: rest =>
      let* atoms := _load_atoms_from_entry entry in
      let* keep := _filter_atoms config atoms in
      let* kept := keep_all config rest in
      ok (if keep : bool then atoms :: kept else kept)
  end.

(** A record is kept when it converts and its structure passes. *)
Definition keeps (config : MPTrajDatasetConfig) (entry : Entry) : bool :=
  match _load_atoms_from_entry entry with
  | inr atoms =>
      match _filter_atoms config atoms with
      | inr keep => keep
      | inl _ => false
      end
  | inl _ => false
  end.

(** The six fields [_load_atoms_from_entry] reads, in the order it reads
    them. *)
Definition required_keys : list string :=
  ["positions"; "numbers"; "cell"; "corrected_total_energy"; "forces";
   "stress"]%string.

(** The configuration with the split of [config] and no predicate set. *)
Definition unfiltered (config : MPTrajDatasetConfig) : MPTrajDatasetConfig :=
  {| split := split config; min_num_atoms := None; max_num_atoms := None;
     elements := None |}.

(** Both count checks of [_filter_atoms] let the structure through. *)
Definition within_bounds (config : MPTrajDatasetConfig) (atoms : Atoms) : bool :=
  match min_num_atoms config with
  | Some m => bool_decide (m ≤ len atoms)
  | None => true
  end &&
  match max_num_atoms config with
  | Some M => bool_decide (len atoms ≤ M)
  | None => true
  end.

(** An atomic number that indexes [chemical_symbols], from the front or
    from the back. *)
Definition in_symbol_table (z : Z) : Prop := -119 ≤ z < 119.

(** * Properties *)

(** ** The error monad *)

Lemma bind_ok_inv {A B} (m : result A) (k : A → result B) (y : B) :
  bind m k = ok y → ∃ x, m = ok x ∧ k x = ok y.
Proof.
  destruct m as [e | x]; simpl; intros H.
  - discriminate H.
  - exists x. split; [reflexivity | exact H].
Qed.

Ltac inv_bind H :=
  let x := fresh "x" in
  let Hx := fresh "Hx" in
  apply bind_ok_inv in H as (x & Hx & H).

(** ** Sequence indexing *)

Lemma py_getitem_front {A} (l : list A) (idx : Z) :
  0 ≤ idx < Z.of_nat (length l) →
  ∃ x, l !! Z.to_nat idx = Some x ∧ py_getitem l idx = ok x.
Proof.
  intros Hidx. unfold py_getitem.
  rewrite bool_decide_eq_true_2 by exact Hidx.
  destruct (lookup_lt_is_Some_2 l (Z.to_nat idx)) as [x Hx]; [lia |].
  exists x. rewrite Hx. split; reflexivity.
Qed.

Lemma py_getitem_back {A} (l : list A) (idx : Z) :
  - Z.of_nat (length l) ≤ idx < 0 →
  ∃ x, l !! Z.to_nat (Z.of_nat (length l) + idx) = Some x ∧ py_getitem l idx = ok x.
Proof.
  intros Hidx. unfold py_getitem.
  rewrite bool_decide_eq_false_2 by lia.
  rewrite bool_decide_eq_true_2 by exact Hidx.
  destruct (lookup_lt_is_Some_2 l (Z.to_nat (Z.of_nat (length l) + idx)))
    as [x Hx]; [lia |].
  exists x. rewrite Hx. split; reflexivity.
Qed.

Lemma py_getitem_outside {A} (l : list A) (idx : Z) :
  idx < - Z.of_nat (length l) ∨ Z.of_nat (length l) ≤ idx →
  py_getitem l idx = raise IndexError.
Proof.
  intros Hidx. unfold py_getitem.
  rewrite bool_decide_eq_false_2 by lia.
  rewrite bool_decide_eq_false_2 by lia.
  reflexivity.
Qed.

(** ** The filter *)

Lemma filter_atoms_true_iff config atoms :
  _filter_atoms config atoms = ok true ↔
    (∀ m, min_num_atoms config = Some m → m ≤ len atoms) ∧
    (∀ M, max_num_atoms config = Some M → len atoms ≤ M) ∧
    (∀ E, elements config = Some E →
       ∃ symbols, get_chemical_symbols atoms = ok symbols ∧
                  list_to_set symbols ⊆@{gset string} list_to_set E).
Proof.
  unfold _filter_atoms.
  destruct (min_num_atoms config) as [m |];
    destruct (max_num_atoms config) as [M |];
    destruct (elements config) as [E |];
    repeat case_bool_decide; simpl;
    try (destruct (get_chemical_symbols atoms) as [e | symbols]; simpl);
    repeat case_bool_decide; simpl;
    (split;
     [ let Hf := fresh "Hf" in
       intros Hf; try discriminate Hf;
       (split; [intros ? [= <-]; lia |]);
       (split; [intros ? [= <-]; lia |]);
       intros ? [= <-]; eauto
     | let Hmin := fresh "Hmin" in
       let Hmax := fresh "Hmax" in
       let Hel := fresh "Hel" in
       intros (Hmin & Hmax & Hel);
       try reflexivity;
       try (specialize (Hmin _ eq_refl); lia);
       try (specialize (Hmax _ eq_refl); lia);
       try (destruct (Hel _ eq_refl) as (? & [=] & ?); subst; done) ]).
Qed.

(** Once the upper bound lies strictly below the lower one, one of the two
    count checks fires before the symbols are looked at. *)
Lemma filter_atoms_crossed_bounds config atoms m M :
  min_num_atoms config = Some m →
  max_num_atoms config = Some M →
  M < m →
  _filter_atoms config atoms = ok false.
Proof.
  intros Hmin Hmax Hlt. unfold _filter_atoms. rewrite Hmin, Hmax.
  case_bool_decide; [reflexivity |].
  rewrite bool_decide_eq_true_2 by lia. reflexivity.
Qed.

(** ** Conversion of a whole stream *)

Lemma traverse_ok_Forall2 {A B} (f : A → result B) (l : list A) (ys : list B) :
  traverse f l = ok ys ↔ Forall2 (λ x y, f x = ok y) l ys.
Proof.
  revert ys. induction l as [| x l IH]; intros ys; simpl.
  - split.
    + intros [= <-]. constructor.
    + intros H. inversion H. reflexivity.
  - split.
    + intros H. inv_bind H. inv_bind H. injection H as <-.
      constructor; [assumption | by apply IH].
    + intros H. inversion H as [| ? y ? ys' Hy Hys]; subst.
      rewrite Hy. simpl. apply IH in Hys. rewrite Hys. reflexivity.
Qed.

Lemma traverse_length {A B} (f : A → result B) (l : list A) (ys : list B) :
  traverse f l = ok ys → length ys = length l.
Proof.
  intros H. apply traverse_ok_Forall2 in H.
  symmetry. eapply Forall2_length, H.
Qed.

(** ** The build loop *)

(** A successful run of the loop converted every record, and appended to the
    accumulator exactly the converted structures that pass, in order. *)
Lemma init_loop_ok config records :
  ∀ acc pbar l p,
    init_loop config records acc pbar = ok (l, p) →
    ∃ converted,
      traverse _load_atoms_from_entry records = ok converted ∧
      l = acc ++ filter (passes config) converted ∧
      p = update (length records) pbar.
Proof.
  induction records as [| entry rest IH]; intros acc pbar l p H; simpl in H.
  - injection H as <- <-. exists []. simpl. rewrite app_nil_r.
    repeat split. destruct pbar; unfold update; simpl. f_equal. lia.
  - apply bind_ok_inv in H as (atoms & Hload & H).
    apply bind_ok_inv in H as (keep & Hkeep & H).
    apply IH in H as (converted & Hconv & -> & ->).
    exists (atoms :: converted). simpl. rewrite Hload, Hconv. simpl.
    split; [reflexivity |]. split.
    + destruct keep.
      * rewrite filter_cons_True by exact Hkeep.
        rewrite <- app_assoc. reflexivity.
      * rewrite filter_cons_False; [reflexivity |].
        unfold passes. rewrite Hkeep. discriminate.
    + destruct pbar; unfold update; simpl. f_equal. lia.
Qed.

(** The accumulated list does not depend on the state of the progress bar. *)
Lemma init_loop_pbar config records :
  ∀ acc pbar pbar',
    match init_loop config records acc pbar,
          init_loop config records acc pbar' with
    | inr st, inr st' => st.1 = st'.1
    | inl e, inl e' => e = e'
    | _, _ => False
    end.
Proof.
  induction records as [| entry rest IH]; intros acc pbar pbar'; simpl.
  - reflexivity.
  - destruct (_load_atoms_from_entry entry) as [e | atoms]; simpl; [reflexivity |].
    destruct (_filter_atoms config atoms) as [e | keep]; simpl; [reflexivity |].
    apply IH.
Qed.



(** What a successful [create_dataset] returns. *)
Lemma create_dataset_ok (source : Source) config records ds :
  source "nimashoghi/mptrj"%string (split config) = ok records →
  create_dataset source config = ok ds →
  ∃ converted,
    traverse _load_atoms_from_entry records = ok converted ∧
    atoms_list ds = filter (passes config) converted.
Proof.
  intros Hsrc H. unfold create_dataset, __init__ in H. rewrite Hsrc in H.
  simpl in H. unfold build_from in H.
  apply bind_ok_inv in H as ([ds' p] & H & [= <-]).
  apply bind_ok_inv in H as ([l p'] & H & [= <- <-]).
  apply init_loop_ok in H as (converted & Hconv & -> & _).
  exists converted. split; [exact Hconv | reflexivity].
Qed.

(** ** The claims *)

(** C1.  Every structure retained in a built dataset respects the configured
    atom-count bounds: at least [m] atoms when [min_num_atoms] is [m], at most
    [M] atoms when [max_num_atoms] is [M].  A converted structure violating a
    bound is not in the dataset, and a converted structure is retained exactly
    when it passes every predicate that is set, so that an unset bound
    restricts nothing. *)
Theorem C1_atom_count_bounds (source : Source) config records ds :
  source "nimashoghi/mptrj"%string (split config) = ok records →
  create_dataset source config = ok ds →
  (∀ atoms, atoms ∈ atoms_list ds →
     (∀ m, min_num_atoms config = Some m → m ≤ len atoms) ∧
     (∀ M, max_num_atoms config = Some M → len atoms ≤ M)) ∧
  (∀ atoms,
     (∃ m, min_num_atoms config = Some m ∧ len atoms < m) ∨
     (∃ M, max_num_atoms config = Some M ∧ len atoms > M) →
     atoms ∉ atoms_list ds) ∧
  (∃ converted,
     traverse _load_atoms_from_entry records = ok converted ∧
     ∀ atoms, atoms ∈ converted →
       (atoms ∈ atoms_list ds ↔
          (∀ m, min_num_atoms config = Some m → m ≤ len atoms) ∧
          (∀ M, max_num_atoms config = Some M → len atoms ≤ M) ∧
          (∀ E, elements config = Some E →
             ∃ symbols, get_chemical_symbols atoms = ok symbols ∧
                        list_to_set symbols ⊆@{gset string} list_to_set E))).
Proof.
  intros Hsrc Hbuild.
  destruct (create_dataset_ok _ _ _ _ Hsrc Hbuild) as (converted & Hconv & Hds).
  assert (Hin : ∀ atoms, atoms ∈ atoms_list ds →
                  (∀ m, min_num_atoms config = Some m → m ≤ len atoms) ∧
                  (∀ M, max_num_atoms config = Some M → len atoms ≤ M)).
  { intros atoms Ha. rewrite Hds in Ha.
    apply list_elem_of_filter in Ha as [Hp _].
    apply filter_atoms_true_iff in Hp as (Hmin & Hmax & _). split; assumption. }
  split; [exact Hin |]. split.
  - intros atoms Hviol Ha. destruct (Hin atoms Ha) as [Hmin Hmax].
    destruct Hviol as [(m & Hm & Hlt) | (M & HM & Hgt)].
    + specialize (Hmin m Hm). lia.
    + specialize (Hmax M HM). lia.
  - exists converted. split; [exact Hconv |].
    intros atoms Ha. rewrite Hds, list_elem_of_filter.
    unfold passes. rewrite filter_atoms_true_iff. tauto.
Qed.

(** C2.  With [elements] set to [E] and the count bounds satisfied, the
    filter retains a structure exactly when its chemical symbols exist and
    their set is a subset of [set(E)]; it drops it exactly when the set is not
    a subset; a structure without any symbol passes. *)
Theorem C2_element_subset config atoms E :
  elements config = Some E →
  (∀ m, min_num_atoms config = Some m → m ≤ len atoms) →
  (∀ M, max_num_atoms config = Some M → len atoms ≤ M) →
  (_filter_atoms config atoms = ok true ↔
     ∃ symbols, get_chemical_symbols atoms = ok symbols ∧
                list_to_set symbols ⊆@{gset string} list_to_set E) ∧
  (∀ symbols, get_chemical_symbols atoms = ok symbols →
     _filter_atoms config atoms =
       ok (bool_decide (list_to_set symbols ⊆@{gset string} list_to_set E))) ∧
  (get_chemical_symbols atoms = ok [] → _filter_atoms config atoms = ok true).
Proof.
  intros HE Hmin Hmax.
  assert (Hsym : ∀ symbols, get_chemical_symbols atoms = ok symbols →
            _filter_atoms config atoms =
              ok (bool_decide (list_to_set symbols ⊆@{gset string} list_to_set E))).
  { intros symbols Hs. unfold _filter_atoms. rewrite HE, Hs.
    destruct (min_num_atoms config) as [m |].
    - specialize (Hmin m eq_refl). rewrite bool_decide_eq_false_2 by lia.
      destruct (max_num_atoms config) as [M |].
      + specialize (Hmax M eq_refl). rewrite bool_decide_eq_false_2 by lia.
        simpl. case_bool_decide; reflexivity.
      + simpl. case_bool_decide; reflexivity.
    - destruct (max_num_atoms config) as [M |].
      + specialize (Hmax M eq_refl). rewrite bool_decide_eq_false_2 by lia.
        simpl. case_bool_decide; reflexivity.
      + simpl. case_bool_decide; reflexivity. }
  split; [| split].
  - rewrite filter_atoms_true_iff. split.
    + intros (_ & _ & Hel). exact (Hel E HE).
    + intros Hel. split; [exact Hmin |]. split; [exact Hmax |].
      intros E' HE'. rewrite HE in HE'. injection HE' as <-. exact Hel.
  - exact Hsym.
  - intros Hs. rewrite (Hsym [] Hs). rewrite bool_decide_eq_true_2; [reflexivity |].
    simpl. apply empty_subseteq.
Qed.

(** C10.  The element filter is monotone in the configured list: when
    [set(E)] is included in [set(E')], a structure that passes with [E] passes
    with [E'], the other fields being the same.  Two lists with the same set,
    in particular a list and the same list with duplicates, give the same
    outcome. *)
Theorem C10_elements_monotone sp mn mx (E E' : list string) atoms :
  (list_to_set E ⊆@{gset string} list_to_set E' →
   _filter_atoms {| split := sp; min_num_atoms := mn; max_num_atoms := mx;
                    elements := Some E |} atoms = ok true →
   _filter_atoms {| split := sp; min_num_atoms := mn; max_num_atoms := mx;
                    elements := Some E' |} atoms = ok true) ∧
  (list_to_set E =@{gset string} list_to_set E' →
   _filter_atoms {| split := sp; min_num_atoms := mn; max_num_atoms := mx;
                    elements := Some E |} atoms =
   _filter_atoms {| split := sp; min_num_atoms := mn; max_num_atoms := mx;
                    elements := Some E' |} atoms) ∧
  _filter_atoms {| split := sp; min_num_atoms := mn; max_num_atoms := mx;
                   elements := Some (remove_dups E) |} atoms =
  _filter_atoms {| split := sp; min_num_atoms := mn; max_num_atoms := mx;
                   elements := Some E |} atoms.
Proof.
  assert (Heq : ∀ E1 E2 : list string,
            list_to_set E1 =@{gset string} list_to_set E2 →
            _filter_atoms {| split := sp; min_num_atoms := mn; max_num_atoms := mx;
                             elements := Some E1 |} atoms =
            _filter_atoms {| split := sp; min_num_atoms := mn; max_num_atoms := mx;
                             elements := Some E2 |} atoms).
  { intros E1 E2 H12. unfold _filter_atoms. simpl. rewrite H12. reflexivity. }
  split; [| split].
  - intros Hsub. rewrite !filter_atoms_true_iff. simpl.
    intros (Hmin & Hmax & Hel). split; [exact Hmin |]. split; [exact Hmax |].
    intros ? [= <-]. destruct (Hel E eq_refl) as (symbols & Hs & Hincl).
    exists symbols. split; [exact Hs |]. set_solver.
  - apply Heq.
  - apply Heq. apply set_eq. intros x.
    rewrite !elem_of_list_to_set. apply elem_of_remove_dups.
Qed.

(** ** Indexing the dataset *)

(** [dataset[-1]] on the dataset built from [three_records] is its last
    structure, not an error. *)
Lemma C3_counterexample :
  let ds := {| config := default_config;
               atoms_list := [sample_atoms (replicate 5 11);
                              sample_atoms (replicate 10 8)] |} in
  create_dataset (constant_source three_records) default_config = ok ds ∧
  (__getitem__ ds (-1)).1 = ok (sample_atoms (replicate 10 8)) ∧
  (__getitem__ ds (-1)).1 ≠ raise IndexError.
Proof.
  simpl. split; [vm_compute; reflexivity |].
  split; [vm_compute; reflexivity | vm_compute; discriminate].
Qed.

(** C3 (amended).  For a dataset of length [L]: [get(L)] raises [IndexError];
    an index in [0, L) returns the structure at that position; an index in
    [-L, 0) counts from the end, so that [get(-1)] is the last structure of a
    non-empty dataset; an index below [-L] raises [IndexError]; neither
    [get] nor [length] changes the dataset. *)
Theorem C3_getitem_python_indexing (ds : MPTrajDataset) :
  let L := (__len__ ds).1 in
  (__getitem__ ds L).1 = raise IndexError ∧
  (∀ idx, 0 ≤ idx < L →
     ∃ atoms, atoms_list ds !! Z.to_nat idx = Some atoms ∧
              __getitem__ ds idx = (ok atoms, ds)) ∧
  (∀ idx, - L ≤ idx < 0 →
     ∃ atoms, atoms_list ds !! Z.to_nat (L + idx) = Some atoms ∧
              __getitem__ ds idx = (ok atoms, ds)) ∧
  (0 < L → (__getitem__ ds (-1)).1 = ok_or IndexError (last (atoms_list ds))) ∧
  (∀ idx, idx < - L → (__getitem__ ds idx).1 = raise IndexError) ∧
  (∀ idx, (__getitem__ ds idx).2 = ds) ∧
  (__len__ ds).2 = ds.
Proof.
  unfold __getitem__, __len__. simpl.
  split; [apply py_getitem_outside; lia |].
  split.
  { intros idx Hidx. destruct (py_getitem_front (atoms_list ds) idx Hidx)
      as (atoms & Hl & Hg).
    exists atoms. rewrite Hg. split; [exact Hl | reflexivity]. }
  split.
  { intros idx Hidx. destruct (py_getitem_back (atoms_list ds) idx Hidx)
      as (atoms & Hl & Hg).
    exists atoms. rewrite Hg. split; [exact Hl | reflexivity]. }
  split.
  { intros HL.
    destruct (py_getitem_back (atoms_list ds) (-1)) as (atoms & Hl & Hg); [lia |].
    rewrite Hg. rewrite last_lookup.
    replace (Nat.pred (length (atoms_list ds)))
      with (Z.to_nat (Z.of_nat (length (atoms_list ds)) + -1)) by lia.
    rewrite Hl. reflexivity. }
  split; [intros idx Hidx; apply py_getitem_outside; lia |].
  split; [intros idx; reflexivity | reflexivity].
Qed.

(** ** Configuration validation *)

(** The conversion of a record raises [KeyError], [ValueError], [TypeError]
    or [IndexError], never a validation error. *)
Lemma dict_getitem_no_validation {V} (d : gmap string V) key :
  dict_getitem d key ≠ raise ValidationError.
Proof. unfold dict_getitem. destruct (d !! key); discriminate. Qed.

Lemma mat_get_no_validation m i j : mat_get m i j ≠ raise ValidationError.
Proof.
  unfold mat_get. destruct (m !! i) as [row |]; [| discriminate].
  destruct (row !! j); discriminate.
Qed.

Lemma bind_no_validation {A B} (m : result A) (k : A → result B) :
  m ≠ raise ValidationError →
  (∀ x, k x ≠ raise ValidationError) →
  bind m k ≠ raise ValidationError.
Proof.
  intros Hm Hk. destruct m as [e | x]; simpl.
  - intros [= ->]. apply Hm. reflexivity.
  - apply Hk.
Qed.

Lemma Atoms_init_no_validation p nu c b :
  Atoms_init p nu c b ≠ raise ValidationError.
Proof.
  unfold Atoms_init.
  apply bind_no_validation; [destruct nu; discriminate | intros ns].
  apply bind_no_validation;
    [destruct c; simpl; try discriminate; case_match; discriminate | intros c'].
  apply bind_no_validation; [| discriminate].
  destruct p; simpl; try discriminate;
    repeat (case_match; try discriminate).
Qed.

Lemma load_no_validation entry :
  _load_atoms_from_entry entry ≠ raise ValidationError.
Proof.
  unfold _load_atoms_from_entry.
  repeat (apply bind_no_validation;
          [first [ apply dict_getitem_no_validation
                 | apply Atoms_init_no_validation
                 | idtac ]
          | intros ? ]).
  - unfold item. repeat (case_match; try discriminate).
  - unfold full_3x3_to_voigt_6_stress. case_match; try discriminate.
    repeat (apply bind_no_validation; [apply mat_get_no_validation | intros ?]).
    discriminate.
  - discriminate.
Qed.

(** With crossed bounds the loop keeps nothing and can only fail on a
    conversion. *)
Lemma init_loop_crossed_bounds config m M records :
  min_num_atoms config = Some m →
  max_num_atoms config = Some M →
  M < m →
  ∀ acc pbar,
    match init_loop config records acc pbar with
    | inr st => st.1 = acc
    | inl e => e ≠ ValidationError
    end.
Proof.
  intros Hmin Hmax Hlt.
  induction records as [| entry rest IH]; intros acc pbar; simpl.
  - reflexivity.
  - pose proof (load_no_validation entry) as Hload.
    destruct (_load_atoms_from_entry entry) as [e | atoms]; simpl.
    + intros ->. apply Hload. reflexivity.
    + rewrite (filter_atoms_crossed_bounds config atoms m M Hmin Hmax Hlt).
      simpl. apply IH.
Qed.

(** A configuration with [max_num_atoms = 3] below [min_num_atoms = 5] is
    constructed without error, and the build from it runs to completion. *)
Lemma C4_counterexample :
  let config := {| split := train; min_num_atoms := Some 5;
                   max_num_atoms := Some 3; elements := None |} in
  MPTrajDatasetConfig_init train (Some 5) (Some 3) None = ok config ∧
  MPTrajDatasetConfig_init train (Some 5) (Some 3) None ≠ raise ValidationError ∧
  create_dataset (constant_source three_records) config =
    ok {| config := config; atoms_list := [] |}.
Proof.
  simpl. split; [reflexivity |]. split; [discriminate |].
  vm_compute. reflexivity.
Qed.

(** C4 (amended).  Constructing a configuration whose [max_num_atoms] lies
    strictly below its [min_num_atoms] succeeds: no cross-field check exists.
    No validation error is raised at construction or during the build; the
    filter drops every structure, so a build that completes yields the empty
    dataset. *)
Theorem C4_crossed_bounds_accepted sp (m M : Z) E :
  M < m →
  ∃ config,
    MPTrajDatasetConfig_init sp (Some m) (Some M) E = ok config ∧
    (∀ atoms, _filter_atoms config atoms = ok false) ∧
    (∀ (source : Source) records,
       source "nimashoghi/mptrj"%string (split config) = ok records →
       create_dataset source config ≠ raise ValidationError ∧
       ∀ ds, create_dataset source config = ok ds → atoms_list ds = []).
Proof.
  intros Hlt. eexists. split; [reflexivity |].
  split.
  - intros atoms. eapply filter_atoms_crossed_bounds; [reflexivity .. | exact Hlt].
  - intros source records Hsrc.
    unfold create_dataset, __init__. rewrite Hsrc. simpl. unfold build_from.
    match goal with
    | |- context [init_loop ?c ?r ?a ?p] =>
        pose proof (init_loop_crossed_bounds c m M r eq_refl eq_refl Hlt a p) as Hloop;
        destruct (init_loop c r a p) as [e | st]
    end; simpl.
    + split; [| discriminate]. intros [= ->]. apply Hloop. reflexivity.
    + split; [discriminate |]. intros ds [= <-]. simpl. exact Hloop.
Qed.

(** ** Failing conversions *)




(** ** The stress label *)

(** C6.  The stress conversion maps the symmetric tensor with diagonal
    (xx, yy, zz) and off-diagonal entries yz, xz, xy to the six components
    (xx, yy, zz, yz, xz, xy); the tensor with diagonal (1, 2, 3) and
    S[1][2] = 4, S[0][2] = 5, S[0][1] = 6 gives [1, 2, 3, 4, 5, 6], and this
    is the stress label a converted record carries. *)
Theorem C6_voigt_order (xx yy zz yz xz xy : Q) :
  (∃ v, full_3x3_to_voigt_6_stress
          (NdFloat2 [[xx; xy; xz]; [xy; yy; yz]; [xz; yz; zz]]) = ok v ∧
        Forall2 Qeq v [xx; yy; zz; yz; xz; xy]) ∧
  (∃ v, full_3x3_to_voigt_6_stress
          (NdFloat2 [[1; 6; 5]; [6; 2; 4]; [5; 4; 3]]%Q) = ok v ∧
        Forall2 Qeq v [1; 2; 3; 4; 5; 6]%Q) ∧
  (∃ atoms c, _load_atoms_from_entry (sample_entry [3]) = ok atoms ∧
              calc atoms = Some c ∧
              Forall2 Qeq (stress c) [1; 2; 3; 4; 5; 6]%Q).
Proof.
  split; [| split].
  - eexists. split; [reflexivity |].
    repeat constructor; try reflexivity; field.
  - eexists. split; [reflexivity |]. repeat constructor; reflexivity.
  - eexists. eexists. split; [vm_compute; reflexivity |].
    split; [reflexivity |]. simpl. repeat constructor; reflexivity.
Qed.

(** ** Size, order and determinism of the build *)

(** Two entries of a sublist occur in the same order in the full list. *)
Lemma sublist_lookup {A} (l1 l2 : list A) :
  l1 `sublist_of` l2 →
  ∀ (i : nat) a, l1 !! i = Some a → ∃ i' : nat, l2 !! i' = Some a.
Proof.
  induction 1 as [| x l1 l2 _ IH | x l1 l2 _ IH]; intros i a Hi.
  - discriminate Hi.
  - destruct i as [| i]; simpl in Hi.
    + exists 0%nat. exact Hi.
    + destruct (IH i a Hi) as [i' Hi']. exists (S i'). exact Hi'.
  - destruct (IH i a Hi) as [i' Hi']. exists (S i'). exact Hi'.
Qed.

Lemma sublist_lookup_order {A} (l1 l2 : list A) :
  l1 `sublist_of` l2 →
  ∀ (i j : nat) a b,
    (i < j)%nat → l1 !! i = Some a → l1 !! j = Some b →
    ∃ i' j' : nat, (i' < j')%nat ∧ l2 !! i' = Some a ∧ l2 !! j' = Some b.
Proof.
  induction 1 as [| x l1 l2 Hsub IH | x l1 l2 Hsub IH]; intros i j a b Hij Hi Hj.
  - discriminate Hi.
  - destruct j as [| j]; [lia |]. simpl in Hj.
    destruct i as [| i]; simpl in Hi.
    + destruct (sublist_lookup _ _ Hsub j b Hj) as [j' Hj'].
      exists 0%nat, (S j'). split; [lia |]. split; [exact Hi | exact Hj'].
    + destruct (IH i j a b ltac:(lia) Hi Hj) as (i' & j' & Hlt & Hi' & Hj').
      exists (S i'), (S j'). split; [lia |]. split; assumption.
  - destruct (IH i j a b Hij Hi Hj) as (i' & j' & Hlt & Hi' & Hj').
    exists (S i'), (S j'). split; [lia |]. split; assumption.
Qed.

(** C7.  The length of a built dataset is at most the number of raw records
    of the split.  The dataset is a sublist of the converted structures, so
    nothing is added or duplicated, and its length is the number of converted
    structures that pass the filter. *)
Theorem C7_length_bound (source : Source) config records ds :
  source "nimashoghi/mptrj"%string (split config) = ok records →
  create_dataset source config = ok ds →
  (__len__ ds).1 ≤ Z.of_nat (length records) ∧
  ∃ converted,
    traverse _load_atoms_from_entry records = ok converted ∧
    length converted = length records ∧
    atoms_list ds `sublist_of` converted ∧
    (__len__ ds).1 = Z.of_nat (length (filter (passes config) converted)).
Proof.
  intros Hsrc Hds.
  destruct (create_dataset_ok _ _ _ _ Hsrc Hds) as (converted & Hconv & Hl).
  pose proof (traverse_length _ _ _ Hconv) as Hlen.
  unfold __len__. simpl. rewrite Hl. split.
  - pose proof (length_filter (passes config) converted). lia.
  - exists converted. split; [exact Hconv |]. split; [exact Hlen |].
    split; [apply sublist_filter | reflexivity].
Qed.

(** C8.  The retained structures keep their upstream order: the dataset is
    the converted stream with the failing structures removed, and any two of
    its entries occur in the same order among the converted structures.  With
    the default configuration (train, at least 5 atoms, no upper bound, no
    element list) and records of 3, 5 and 10 atoms, the dataset has length 2
    and holds the 5-atom structure before the 10-atom one. *)
Theorem C8_upstream_order :
  (∀ (source : Source) config records ds,
     source "nimashoghi/mptrj"%string (split config) = ok records →
     create_dataset source config = ok ds →
     ∃ converted,
       traverse _load_atoms_from_entry records = ok converted ∧
       atoms_list ds = filter (passes config) converted ∧
       ∀ (i j : nat) a b,
         (i < j)%nat →
         atoms_list ds !! i = Some a → atoms_list ds !! j = Some b →
         ∃ i' j' : nat, (i' < j')%nat ∧
                        converted !! i' = Some a ∧ converted !! j' = Some b) ∧
  (∃ ds, create_dataset (constant_source three_records)
           {| split := train; min_num_atoms := Some 5;
              max_num_atoms := None; elements := None |} = ok ds ∧
         (__len__ ds).1 = 2 ∧
         (__getitem__ ds 0).1 = ok (sample_atoms (replicate 5 11)) ∧
         (__getitem__ ds 1).1 = ok (sample_atoms (replicate 10 8)) ∧
         len (sample_atoms (replicate 5 11)) = 5 ∧
         len (sample_atoms (replicate 10 8)) = 10).
Proof.
  split.
  - intros source config records ds Hsrc Hds.
    destruct (create_dataset_ok _ _ _ _ Hsrc Hds) as (converted & Hconv & Hl).
    exists converted. split; [exact Hconv |]. split; [exact Hl |].
    apply sublist_lookup_order. rewrite Hl. apply sublist_filter.
  - eexists. split; [vm_compute; reflexivity |].
    repeat split; vm_compute; reflexivity.
Qed.

(** C9.  The build is a function of the configuration and of the records
    fetched for its split: two sources that serve the same records for that
    split give the same outcome, whatever the state of the progress bar, and
    two datasets so built have equal lengths and equal entries at every
    index. *)
Theorem C9_build_deterministic (source source' : Source) config records :
  source "nimashoghi/mptrj"%string (split config) = ok records →
  source' "nimashoghi/mptrj"%string (split config) = ok records →
  create_dataset source config = create_dataset source' config ∧
  (∀ pbar pbar',
     (bind (build_from config records pbar) (λ r, ok r.1)) =
     (bind (build_from config records pbar') (λ r, ok r.1))) ∧
  (∀ ds ds',
     create_dataset source config = ok ds →
     create_dataset source' config = ok ds' →
     (__len__ ds).1 = (__len__ ds').1 ∧
     ∀ idx, (__getitem__ ds idx).1 = (__getitem__ ds' idx).1).
Proof.
  intros Hsrc Hsrc'.
  assert (Heq : create_dataset source config = create_dataset source' config).
  { unfold create_dataset, __init__. rewrite Hsrc, Hsrc'. reflexivity. }
  split; [exact Heq |]. split.
  - intros pbar pbar'. unfold build_from.
    pose proof (init_loop_pbar config records [] pbar pbar') as H.
    destruct (init_loop config records [] pbar) as [e | st],
             (init_loop config records [] pbar') as [e' | st']; simpl;
      try contradiction.
    + rewrite H. reflexivity.
    + rewrite H. reflexivity.
  - intros ds ds' Hds Hds'. rewrite Heq, Hds' in Hds. injection Hds as ->.
    split; [reflexivity |]. intros idx. reflexivity.
Qed.

(** ** Runs on the sample records *)

Example elements_scenario :
  _filter_atoms li_na_config (sample_atoms [3]) = ok true ∧
  _filter_atoms li_na_config (sample_atoms [3; 8]) = ok false ∧
  _filter_atoms li_na_config (sample_atoms []) = ok true.
Proof. repeat split; vm_compute; reflexivity. Qed.

Lemma three_records_build :
  create_dataset (constant_source three_records) default_config =
    ok three_records_dataset.
Proof. vm_compute. reflexivity. Defined.

Lemma C1_atom_count_bounds_witness :
  create_dataset (constant_source three_records) default_config =
    ok three_records_dataset ∧
  5 ≤ len (sample_atoms (replicate 5 11)).
Proof.
  split; [exact three_records_build |].
  destruct (C1_atom_count_bounds (constant_source three_records) default_config
              three_records three_records_dataset eq_refl three_records_build)
    as (Hin & _).
  destruct (Hin (sample_atoms (replicate 5 11))) as [Hmin _].
  - simpl. apply list_elem_of_here.
  - apply (Hmin 5). reflexivity.
Defined.

Lemma C2_element_subset_witness :
  elements li_na_config = Some ["Li"; "Na"]%string ∧
  _filter_atoms li_na_config (sample_atoms [3]) = ok true.
Proof.
  split; [reflexivity |].
  destruct (C2_element_subset li_na_config (sample_atoms [3]) ["Li"; "Na"]%string)
    as (Hiff & _).
  - reflexivity.
  - simpl. intros m Hm. discriminate Hm.
  - simpl. intros M HM. discriminate HM.
  - apply Hiff. exists ["Li"%string]. split; [vm_compute; reflexivity |].
    apply (bool_decide_unpack _). vm_compute. exact I.
Defined.

Lemma C3_getitem_python_indexing_witness :
  0 ≤ 1 < (__len__ three_records_dataset).1 ∧
  ∃ atoms, atoms_list three_records_dataset !! Z.to_nat 1 = Some atoms ∧
           __getitem__ three_records_dataset 1 = (ok atoms, three_records_dataset).
Proof.
  assert (H : 0 ≤ 1 < (__len__ three_records_dataset).1) by (simpl; lia).
  split; [exact H |].
  destruct (C3_getitem_python_indexing three_records_dataset) as (_ & Hfront & _).
  exact (Hfront 1 H).
Defined.

Lemma C4_crossed_bounds_accepted_witness :
  3 < 5 ∧
  ∃ config,
    MPTrajDatasetConfig_init train (Some 5) (Some 3) None = ok config ∧
    (∀ atoms, _filter_atoms config atoms = ok false) ∧
    (∀ (source : Source) records,
       source "nimashoghi/mptrj"%string (split config) = ok records →
       create_dataset source config ≠ raise ValidationError ∧
       ∀ ds, create_dataset source config = ok ds → atoms_list ds = []).
Proof.
  assert (H : 3 < 5) by lia.
  split; [exact H |].
  exact (C4_crossed_bounds_accepted train 5 3 None H).
Defined.


Lemma C7_length_bound_witness :
  create_dataset (constant_source three_records) default_config =
    ok three_records_dataset ∧
  (__len__ three_records_dataset).1 ≤ Z.of_nat (length three_records).
Proof.
  split; [exact three_records_build |].
  destruct (C7_length_bound (constant_source three_records) default_config
              three_records three_records_dataset eq_refl three_records_build)
    as (Hle & _).
  exact Hle.
Defined.

Lemma C8_upstream_order_witness :
  create_dataset (constant_source three_records) default_config =
    ok three_records_dataset ∧
  ∃ i' j' : nat, (i' < j')%nat ∧
    ∃ converted,
      traverse _load_atoms_from_entry three_records = ok converted ∧
      converted !! i' = Some (sample_atoms (replicate 5 11)) ∧
      converted !! j' = Some (sample_atoms (replicate 10 8)).
Proof.
  split; [exact three_records_build |].
  destruct C8_upstream_order as (Horder & _).
  destruct (Horder (constant_source three_records) default_config
              three_records three_records_dataset eq_refl three_records_build)
    as (converted & Hconv & _ & Hij).
  destruct (Hij 0%nat 1%nat (sample_atoms (replicate 5 11))
              (sample_atoms (replicate 10 8)))
    as (i' & j' & Hlt & Hi' & Hj').
  - lia.
  - reflexivity.
  - reflexivity.
  - exists i', j'. split; [exact Hlt |]. exists converted.
    split; [exact Hconv |]. split; assumption.
Defined.

Lemma C9_build_deterministic_witness :
  constant_source three_records "nimashoghi/mptrj"%string (split default_config)
    = ok three_records ∧
  train_only_source three_records "nimashoghi/mptrj"%string (split default_config)
    = ok three_records ∧
  create_dataset (constant_source three_records) default_config =
    create_dataset (train_only_source three_records) default_config.
Proof.
  split; [reflexivity |]. split; [reflexivity |].
  destruct (C9_build_deterministic (constant_source three_records)
              (train_only_source three_records) default_config three_records
              eq_refl eq_refl) as (Heq & _).
  exact Heq.
Defined.

Lemma C10_elements_monotone_witness :
  list_to_set ["Li"%string] ⊆@{gset string} list_to_set ["Li"; "Na"; "Li"]%string ∧
  _filter_atoms {| split := train; min_num_atoms := None; max_num_atoms := None;
                   elements := Some ["Li"; "Na"; "Li"]%string |}
                (sample_atoms [3]) = ok true.
Proof.
  assert (Hsub : list_to_set ["Li"%string]
                   ⊆@{gset string} list_to_set ["Li"; "Na"; "Li"]%string)
    by (apply (bool_decide_unpack _); vm_compute; exact I).
  split; [exact Hsub |].
  destruct (C10_elements_monotone train None None ["Li"%string]
              ["Li"; "Na"; "Li"]%string (sample_atoms [3])) as (Hmono & _).
  apply Hmono; [exact Hsub |]. vm_compute. reflexivity.
Defined.

(** * Further properties of the loader *)

(** ** Conversion of one record *)

Lemma dict_getitem_ok {V} (d : gmap string V) key v :
  dict_getitem d key = ok v ↔ d !! key = Some v.
Proof.
  unfold dict_getitem. destruct (d !! key) as [w |]; split; intros H;
    try discriminate H; try (injection H as ->; reflexivity).
Qed.

Lemma forallb_rows_of_three (m : list (list Q)) :
  forallb (λ r, bool_decide (length r = 3%nat)) m = true →
  Forall (λ r, length r = 3%nat) m.
Proof.
  induction m as [| r m IH]; simpl; intros H; constructor.
  - apply andb_prop in H as [Hr _]. apply bool_decide_eq_true in Hr. exact Hr.
  - apply IH. apply andb_prop in H as [_ Hm]. exact Hm.
Qed.

Lemma as_positions_ok k a ps :
  as_positions k a = ok ps →
  length ps = k ∧ Forall (λ r, length r = 3%nat) ps.
Proof.
  destruct a as [x | v | m | v]; simpl; try discriminate.
  - case_bool_decide as Hlen; simpl; [| discriminate].
    destruct v; [| discriminate]. intros [= <-]. split; [exact Hlen | constructor].
  - case_bool_decide as Hlen; simpl; [| discriminate].
    destruct (forallb _ m) eqn:Hrows; [| discriminate].
    intros [= <-]. split; [exact Hlen | by apply forallb_rows_of_three].
  - case_bool_decide as Hlen; simpl; [| discriminate].
    destruct v; [| discriminate]. intros [= <-]. split; [exact Hlen | constructor].
Qed.

Lemma Atoms_init_ok p nu c b atoms :
  Atoms_init p nu c b = ok atoms →
  pbc atoms = b ∧ calc atoms = None ∧
  length (positions atoms) = length (numbers atoms) ∧
  Forall (λ r, length r = 3%nat) (positions atoms).
Proof.
  unfold Atoms_init. intros H.
  apply bind_ok_inv in H as (ns & _ & H).
  apply bind_ok_inv in H as (c' & _ & H).
  apply bind_ok_inv in H as (ps & Hps & H).
  injection H as <-. simpl.
  apply as_positions_ok in Hps as [Hlen Hrows].
  repeat split; assumption.
Qed.

Lemma voigt_length a v :
  full_3x3_to_voigt_6_stress a = ok v → length v = 6%nat.
Proof.
  destruct a as [x | w | m | w]; simpl; try discriminate.
  intros H. repeat inv_bind H. injection H as <-. reflexivity.
Qed.

(** X1.  A record that converts yields a periodic structure with as many
    positions as atomic numbers, three coordinates per position, and a
    calculator holding the scalar of [corrected_total_energy], the forces
    field and a stress of exactly six components derived from the stress
    field. *)
Theorem X1_converted_structure (entry : Entry) atoms :
  _load_atoms_from_entry entry = ok atoms →
  pbc atoms = true ∧
  length (positions atoms) = length (numbers atoms) ∧
  Forall (λ r, length r = 3%nat) (positions atoms) ∧
  ∃ c e f s,
    calc atoms = Some c ∧
    entry !! "corrected_total_energy"%string = Some e ∧ item e = ok (energy c) ∧
    entry !! "forces"%string = Some f ∧ forces c = as_float f ∧
    entry !! "stress"%string = Some s ∧
    full_3x3_to_voigt_6_stress s = ok (stress c) ∧
    length (stress c) = 6%nat.
Proof.
  unfold _load_atoms_from_entry. intros H.
  apply bind_ok_inv in H as (p & _ & H).
  apply bind_ok_inv in H as (nu & _ & H).
  apply bind_ok_inv in H as (c & _ & H).
  apply bind_ok_inv in H as (a0 & Ha0 & H).
  apply bind_ok_inv in H as (e & He & H).
  apply bind_ok_inv in H as (en & Hen & H).
  apply bind_ok_inv in H as (f & Hf & H).
  apply bind_ok_inv in H as (s & Hs & H).
  apply bind_ok_inv in H as (st & Hst & H).
  injection H as <-. simpl.
  apply Atoms_init_ok in Ha0 as (Hpbc & _ & Hlen & Hrows).
  split; [exact Hpbc |]. split; [exact Hlen |]. split; [exact Hrows |].
  eexists _, e, f, s. split; [reflexivity |]. simpl.
  apply dict_getitem_ok in He, Hf, Hs.
  repeat split; try assumption. eapply voigt_length, Hst.
Qed.

(** X2.  The conversion reads the six fields of [required_keys] and nothing
    else: a record that converts has all six; a record lacking one of them
    raises, with [KeyError('positions')] when the first one read is absent;
    adding or removing any other field leaves the result unchanged. *)
Theorem X2_six_fields_read (entry : Entry) :
  (∀ atoms, _load_atoms_from_entry entry = ok atoms →
     Forall (λ k, is_Some (entry !! k)) required_keys) ∧
  (∀ k, k ∈ required_keys → entry !! k = None →
     ∃ e, _load_atoms_from_entry entry = raise e) ∧
  (entry !! "positions"%string = None →
     _load_atoms_from_entry entry = raise (KeyError "positions")) ∧
  (∀ k v, k ∉ required_keys →
     _load_atoms_from_entry (<[k := v]> entry) = _load_atoms_from_entry entry) ∧
  (∀ k, k ∉ required_keys →
     _load_atoms_from_entry (delete k entry) = _load_atoms_from_entry entry).
Proof.
  assert (Hall : ∀ atoms, _load_atoms_from_entry entry = ok atoms →
                   Forall (λ k, is_Some (entry !! k)) required_keys).
  { unfold _load_atoms_from_entry. intros atoms H.
    apply bind_ok_inv in H as (p & Hp & H).
    apply bind_ok_inv in H as (nu & Hnu & H).
    apply bind_ok_inv in H as (c & Hc & H).
    apply bind_ok_inv in H as (a0 & _ & H).
    apply bind_ok_inv in H as (e & He & H).
    apply bind_ok_inv in H as (en & _ & H).
    apply bind_ok_inv in H as (f & Hf & H).
    apply bind_ok_inv in H as (s & Hs & _).
    apply dict_getitem_ok in Hp, Hnu, Hc, He, Hf, Hs.
    unfold required_keys. repeat constructor; eauto. }
  split; [exact Hall |]. split; [| split; [| split]].
  - intros k Hk Hnone.
    destruct (_load_atoms_from_entry entry) as [e | atoms] eqn:Hload; [eauto |].
    specialize (Hall atoms eq_refl).
    rewrite Forall_forall in Hall. destruct (Hall k Hk) as [v Hv].
    rewrite Hnone in Hv. discriminate Hv.
  - intros Hnone. unfold _load_atoms_from_entry, dict_getitem.
    rewrite Hnone. reflexivity.
  - intros k v Hk. unfold required_keys in Hk.
    rewrite !not_elem_of_cons in Hk. destruct Hk as (? & ? & ? & ? & ? & ? & _).
    unfold _load_atoms_from_entry, dict_getitem.
    rewrite !lookup_insert_ne by done. reflexivity.
  - intros k Hk. unfold required_keys in Hk.
    rewrite !not_elem_of_cons in Hk. destruct Hk as (? & ? & ? & ? & ? & ? & _).
    unfold _load_atoms_from_entry, dict_getitem.
    rewrite !lookup_delete_ne by done. reflexivity.
Qed.

(** ** The filter, case by case *)

Lemma within_bounds_iff config atoms :
  within_bounds config atoms = true ↔
    (∀ m, min_num_atoms config = Some m → m ≤ len atoms) ∧
    (∀ M, max_num_atoms config = Some M → len atoms ≤ M).
Proof.
  unfold within_bounds.
  destruct (min_num_atoms config) as [m |], (max_num_atoms config) as [M |];
    simpl; rewrite ?andb_true_iff, ?andb_true_r, ?bool_decide_eq_true;
    (split;
     [ intros Hb; split; intros ? Heq; simplify_eq; tauto
     | intros [Hm HM]; repeat split; eauto ]).
Qed.

Lemma within_bounds_false_iff config atoms :
  within_bounds config atoms = false ↔
    (∃ m, min_num_atoms config = Some m ∧ len atoms < m) ∨
    (∃ M, max_num_atoms config = Some M ∧ len atoms > M).
Proof.
  unfold within_bounds.
  destruct (min_num_atoms config) as [m |], (max_num_atoms config) as [M |];
    simpl; rewrite ?andb_false_iff, ?andb_true_r, ?bool_decide_eq_false;
    (split;
     [ intros Hb; try discriminate Hb;
       first [ destruct Hb as [Hb | Hb]; [left; exists m | right; exists M]
             | left; exists m
             | right; exists M ];
       (split; [reflexivity | lia])
     | intros [(x & Heq & Hx) | (x & Heq & Hx)]; simplify_eq;
       first [ left; lia | right; lia | lia ] ]).
Qed.

(** The three branches of [_filter_atoms] in one equation. *)
Lemma filter_atoms_eq config atoms :
  _filter_atoms config atoms =
    if within_bounds config atoms then
      match elements config with
      | Some E =>
          bind (get_chemical_symbols atoms)
               (λ symbols, ok (bool_decide
                  (list_to_set symbols ⊆@{gset string} list_to_set E)))
      | None => ok true
      end
    else ok false.
Proof.
  unfold _filter_atoms, within_bounds.
  destruct (min_num_atoms config) as [m |], (max_num_atoms config) as [M |];
    repeat case_bool_decide; simpl; try reflexivity; try lia;
    destruct (elements config) as [E |]; try reflexivity;
    destruct (get_chemical_symbols atoms) as [e | symbols]; simpl;
    try reflexivity; case_bool_decide; reflexivity.
Qed.

(** ** The symbol table *)

Lemma chemical_symbols_length : length chemical_symbols = 119%nat.
Proof. reflexivity. Qed.

Lemma symbol_lookup_ok z :
  in_symbol_table z → ∃ sym, py_getitem chemical_symbols z = ok sym.
Proof.
  unfold in_symbol_table. intros Hz.
  destruct (decide (0 ≤ z)) as [Hpos | Hneg].
  - destruct (py_getitem_front chemical_symbols z) as (sym & _ & Hs).
    + rewrite chemical_symbols_length. lia.
    + eauto.
  - destruct (py_getitem_back chemical_symbols z) as (sym & _ & Hs).
    + rewrite chemical_symbols_length. lia.
    + eauto.
Qed.

Lemma symbol_lookup_raise z :
  ¬ in_symbol_table z → py_getitem chemical_symbols z = raise IndexError.
Proof.
  unfold in_symbol_table. intros Hz. apply py_getitem_outside.
  rewrite chemical_symbols_length. lia.
Qed.

Lemma get_chemical_symbols_ok_iff atoms :
  (∃ symbols, get_chemical_symbols atoms = ok symbols) ↔
  Forall in_symbol_table (numbers atoms).
Proof.
  unfold get_chemical_symbols.
  induction (numbers atoms) as [| z l IH]; simpl.
  - split; [constructor | eauto].
  - split.
    + intros [symbols H]. inv_bind H. inv_bind H. constructor.
      * destruct (decide (in_symbol_table z)) as [Hz | Hz]; [exact Hz |].
        rewrite (symbol_lookup_raise z Hz) in Hx. discriminate Hx.
      * apply IH. eauto.
    + intros H. inversion H as [| ? ? Hz Hl]; subst.
      destruct (symbol_lookup_ok z Hz) as [sym ->].
      destruct (proj2 IH Hl) as [syms ->]. simpl. eauto.
Qed.

Lemma get_chemical_symbols_raise atoms e :
  get_chemical_symbols atoms = raise e → e = IndexError.
Proof.
  unfold get_chemical_symbols.
  induction (numbers atoms) as [| z l IH]; simpl; [discriminate |].
  destruct (decide (in_symbol_table z)) as [Hz | Hz].
  - destruct (symbol_lookup_ok z Hz) as [sym ->]. simpl.
    destruct (traverse _ l) as [e' | syms]; simpl; [| discriminate].
    intros [= <-]. apply IH. reflexivity.
  - rewrite (symbol_lookup_raise z Hz). simpl. intros [= <-]. reflexivity.
Qed.

(** X3.  The two count checks come first: a structure outside a configured
    bound is dropped whatever its atomic numbers and whatever the element
    list, without an error.  Without an element list the filter never raises
    and returns [True] exactly when both bounds hold. *)
Theorem X3_count_checks_first config atoms :
  ((∃ m, min_num_atoms config = Some m ∧ len atoms < m) ∨
   (∃ M, max_num_atoms config = Some M ∧ len atoms > M) →
   _filter_atoms config atoms = ok false) ∧
  (elements config = None →
   ∃ keep, _filter_atoms config atoms = ok keep ∧
           (keep = true ↔
              (∀ m, min_num_atoms config = Some m → m ≤ len atoms) ∧
              (∀ M, max_num_atoms config = Some M → len atoms ≤ M))).
Proof.
  split.
  - intros Hviol. apply within_bounds_false_iff in Hviol.
    rewrite filter_atoms_eq, Hviol. reflexivity.
  - intros Hnone. exists (within_bounds config atoms). split.
    + rewrite filter_atoms_eq, Hnone. destruct (within_bounds config atoms); reflexivity.
    + apply within_bounds_iff.
Qed.

(** X4.  The filter raises in one situation only: an element list is set,
    both count bounds hold, and some atomic number of the structure does not
    index the symbol table; the exception is then [IndexError]. *)
Theorem X4_filter_raises_iff config atoms e :
  _filter_atoms config atoms = raise e ↔
    e = IndexError ∧
    is_Some (elements config) ∧
    (∀ m, min_num_atoms config = Some m → m ≤ len atoms) ∧
    (∀ M, max_num_atoms config = Some M → len atoms ≤ M) ∧
    Exists (λ z, ¬ in_symbol_table z) (numbers atoms).
Proof.
  rewrite filter_atoms_eq. split.
  - destruct (within_bounds config atoms) eqn:Hb; [| discriminate].
    apply within_bounds_iff in Hb as [Hmin Hmax].
    destruct (elements config) as [E |]; [| discriminate].
    destruct (get_chemical_symbols atoms) as [e' | symbols] eqn:Hs; simpl;
      [| discriminate].
    intros [= <-]. split; [eapply get_chemical_symbols_raise, Hs |].
    split; [eauto |]. split; [exact Hmin |]. split; [exact Hmax |].
    apply not_Forall_Exists; [intros z; apply _ |].
    intros Hall. apply get_chemical_symbols_ok_iff in Hall as [syms Hsyms].
    rewrite Hs in Hsyms. discriminate Hsyms.
  - intros (-> & [E HE] & Hmin & Hmax & Hex).
    rewrite (proj2 (within_bounds_iff config atoms) (conj Hmin Hmax)), HE.
    destruct (get_chemical_symbols atoms) as [e' | symbols] eqn:Hs; simpl.
    + f_equal. eapply get_chemical_symbols_raise, Hs.
    + exfalso. apply Exists_not_Forall in Hex. apply Hex.
      apply get_chemical_symbols_ok_iff. eauto.
Qed.

(** X14.  An empty element list is a restriction, not its absence: with
    [elements = []] the filter returns [True] exactly for the structures
    within the count bounds that have no atom at all. *)
Theorem X14_empty_element_list config atoms :
  elements config = Some [] →
  (_filter_atoms config atoms = ok true ↔
     (∀ m, min_num_atoms config = Some m → m ≤ len atoms) ∧
     (∀ M, max_num_atoms config = Some M → len atoms ≤ M) ∧
     numbers atoms = []).
Proof.
  intros HE. rewrite filter_atoms_true_iff. split.
  - intros (Hmin & Hmax & Hel). split; [exact Hmin |]. split; [exact Hmax |].
    destruct (Hel [] HE) as (symbols & Hs & Hsub).
    assert (symbols = []) as ->.
    { destruct symbols as [| x symbols]; [reflexivity |].
      exfalso. simpl in Hsub. set_solver. }
    apply traverse_length in Hs. simpl in Hs.
    destruct (numbers atoms); [reflexivity | discriminate Hs].
  - intros (Hmin & Hmax & Hnil). split; [exact Hmin |]. split; [exact Hmax |].
    intros E HE'. rewrite HE in HE'. injection HE' as <-.
    exists []. unfold get_chemical_symbols. rewrite Hnil. split; [reflexivity |].
    simpl. apply empty_subseteq.
Qed.

(** X16.  Degenerate bounds: a minimum that is zero or negative filters
    like no minimum at all, and a negative maximum drops every structure. *)
Theorem X16_degenerate_bounds sp (m M : Z) mn mx E atoms :
  (m ≤ 0 →
   _filter_atoms {| split := sp; min_num_atoms := Some m; max_num_atoms := mx;
                    elements := E |} atoms =
   _filter_atoms {| split := sp; min_num_atoms := None; max_num_atoms := mx;
                    elements := E |} atoms) ∧
  (M < 0 →
   _filter_atoms {| split := sp; min_num_atoms := mn; max_num_atoms := Some M;
                    elements := E |} atoms = ok false).
Proof.
  split.
  - intros Hm. rewrite !filter_atoms_eq. unfold within_bounds. simpl.
    rewrite bool_decide_eq_true_2; [reflexivity |]. unfold len. lia.
  - intros HM. rewrite filter_atoms_eq.
    replace (within_bounds _ atoms) with false; [reflexivity |].
    symmetry. apply within_bounds_false_iff. right. exists M. simpl.
    split; [reflexivity |]. unfold len. lia.
Qed.

(** ** The loop as a function of the records *)

Lemma update_update k pbar : update k (update 1 pbar) = update (S k) pbar.
Proof. destruct pbar. unfold update. simpl. f_equal. lia. Qed.

Lemma update_zero pbar : update 0 pbar = pbar.
Proof. destruct pbar. unfold update. simpl. f_equal. lia. Qed.

Lemma init_loop_keep_all config records :
  ∀ acc pbar,
    init_loop config records acc pbar =
      bind (keep_all config records)
           (λ kept, ok (acc ++ kept, update (length records) pbar)).
Proof.
  induction records as [| entry rest IH]; intros acc pbar; simpl.
  - rewrite app_nil_r, update_zero. reflexivity.
  - destruct (_load_atoms_from_entry entry) as [e | atoms]; simpl; [reflexivity |].
    destruct (_filter_atoms config atoms) as [e | keep]; simpl; [reflexivity |].
    rewrite IH. destruct (keep_all config rest) as [e | kept]; simpl;
      [reflexivity |].
    rewrite update_update. destruct keep; [| reflexivity].
    rewrite <- app_assoc. reflexivity.
Qed.

Lemma init_eq (source : Source) cfg :
  __init__ source cfg =
    bind (source "nimashoghi/mptrj"%string (split cfg))
         (λ records,
            bind (keep_all cfg records)
                 (λ kept, ok ({| config := cfg; atoms_list := kept |},
                              close (update (length records) (tqdm_new records))))).
Proof.
  unfold __init__.
  destruct (source _ _) as [e | records]; simpl; [reflexivity |].
  unfold build_from. rewrite init_loop_keep_all.
  destruct (keep_all cfg records); reflexivity.
Qed.

Lemma create_dataset_eq (source : Source) cfg :
  create_dataset source cfg =
    bind (source "nimashoghi/mptrj"%string (split cfg))
         (λ records,
            bind (keep_all cfg records)
                 (λ kept, ok {| config := cfg; atoms_list := kept |})).
Proof.
  unfold create_dataset. rewrite init_eq.
  destruct (source _ _) as [e | records]; simpl; [reflexivity |].
  destruct (keep_all cfg records); reflexivity.
Qed.

Lemma keep_all_ok config records kept :
  keep_all config records = ok kept →
  ∃ converted,
    traverse _load_atoms_from_entry records = ok converted ∧
    kept = filter (passes config) converted.
Proof.
  revert kept. induction records as [| entry rest IH]; intros kept H; simpl in H.
  - injection H as <-. exists []. split; reflexivity.
  - apply bind_ok_inv in H as (atoms & Hload & H).
    apply bind_ok_inv in H as (keep & Hkeep & H).
    apply bind_ok_inv in H as (kept' & Hrest & H).
    injection H as <-.
    destruct (IH kept' Hrest) as (converted & Hconv & ->).
    exists (atoms :: converted). simpl. rewrite Hload, Hconv. simpl.
    split; [reflexivity |]. destruct keep.
    + rewrite filter_cons_True by exact Hkeep. reflexivity.
    + rewrite filter_cons_False; [reflexivity |].
      unfold passes. rewrite Hkeep. discriminate.
Qed.

Lemma filter_sublist_impl {A} (P Q : A → Prop)
    `{∀ x, Decision (P x)} `{∀ x, Decision (Q x)} (l : list A) :
  (∀ x, P x → Q x) → filter P l `sublist_of` filter Q l.
Proof.
  intros HPQ. induction l as [| x l IH]; [constructor |].
  rewrite !filter_cons.
  destruct (decide (P x)) as [HP | HP].
  - rewrite decide_True by auto. by constructor.
  - destruct (decide (Q x)); [by constructor | exact IH].
Qed.

(** X5.  Loosening the count bounds (a lower or absent minimum, a higher or
    absent maximum, the same element list) keeps every structure that passed
    before, and the dataset built with the tighter bounds is a sublist of the
    one built with the looser bounds from the same records. *)
Theorem X5_looser_bounds (source : Source) sp mn mx mn' mx' E records :
  (∀ m', mn' = Some m' → ∃ m, mn = Some m ∧ m' ≤ m) →
  (∀ M', mx' = Some M' → ∃ M, mx = Some M ∧ M ≤ M') →
  (∀ atoms,
     _filter_atoms {| split := sp; min_num_atoms := mn; max_num_atoms := mx;
                      elements := E |} atoms = ok true →
     _filter_atoms {| split := sp; min_num_atoms := mn'; max_num_atoms := mx';
                      elements := E |} atoms = ok true) ∧
  (source "nimashoghi/mptrj"%string sp = ok records →
   ∀ ds ds',
     create_dataset source {| split := sp; min_num_atoms := mn;
                              max_num_atoms := mx; elements := E |} = ok ds →
     create_dataset source {| split := sp; min_num_atoms := mn';
                              max_num_atoms := mx'; elements := E |} = ok ds' →
     atoms_list ds `sublist_of` atoms_list ds').
Proof.
  intros Hmn Hmx.
  assert (Himpl : ∀ atoms,
     _filter_atoms {| split := sp; min_num_atoms := mn; max_num_atoms := mx;
                      elements := E |} atoms = ok true →
     _filter_atoms {| split := sp; min_num_atoms := mn'; max_num_atoms := mx';
                      elements := E |} atoms = ok true).
  { intros atoms. rewrite !filter_atoms_true_iff. simpl.
    intros (Hmin & Hmax & Hel). split; [| split; [| exact Hel]].
    - intros m' Hm'. destruct (Hmn m' Hm') as (m & Hm & Hle).
      specialize (Hmin m Hm). lia.
    - intros M' HM'. destruct (Hmx M' HM') as (M & HM & Hle).
      specialize (Hmax M HM). lia. }
  split; [exact Himpl |].
  intros Hsrc ds ds' Hds Hds'.
  destruct (create_dataset_ok _ _ _ _ Hsrc Hds) as (converted & Hconv & ->).
  destruct (create_dataset_ok _ _ _ _ Hsrc Hds') as (converted' & Hconv' & ->).
  rewrite Hconv in Hconv'. injection Hconv' as <-.
  apply filter_sublist_impl. exact Himpl.
Qed.

Lemma passes_unfiltered config atoms : passes (unfiltered config) atoms.
Proof. reflexivity. Qed.

Lemma filter_all {A} (P : A → Prop) `{∀ x, Decision (P x)} (l : list A) :
  (∀ x, P x) → filter P l = l.
Proof.
  intros HP. induction l as [| x l IH]; [reflexivity |].
  rewrite filter_cons_True by apply HP. rewrite IH. reflexivity.
Qed.

(** X6.  With no predicate set, nothing is dropped: such a build succeeds
    exactly when every record converts, and the dataset is then the converted
    stream itself, one structure per record. *)
Theorem X6_unfiltered_keeps_all (source : Source) config records :
  source "nimashoghi/mptrj"%string (split config) = ok records →
  (∀ ds0, create_dataset source (unfiltered config) = ok ds0 →
     traverse _load_atoms_from_entry records = ok (atoms_list ds0) ∧
     (__len__ ds0).1 = Z.of_nat (length records)) ∧
  (∀ converted,
     traverse _load_atoms_from_entry records = ok converted →
     create_dataset source (unfiltered config) =
       ok {| config := unfiltered config; atoms_list := converted |}).
Proof.
  intros Hsrc. split.
  - intros ds0 Hds0.
    destruct (create_dataset_ok source (unfiltered config) records ds0 Hsrc Hds0)
      as (converted & Hconv & Hl).
    rewrite filter_all in Hl by apply passes_unfiltered.
    unfold __len__. simpl. rewrite Hl. split; [exact Hconv |].
    f_equal. eapply traverse_length, Hconv.
  - intros converted Hconv. rewrite create_dataset_eq. simpl. rewrite Hsrc. simpl.
    clear Hsrc. revert converted Hconv.
    induction records as [| entry rest IH]; intros converted Hconv; simpl in *.
    + injection Hconv as <-. reflexivity.
    + destruct (_load_atoms_from_entry entry) as [e | atoms]; simpl in *;
        [discriminate Hconv |].
      destruct (traverse _load_atoms_from_entry rest) as [e | conv'] eqn:Hrest;
        simpl in *; [discriminate Hconv |].
      injection Hconv as <-.
      specialize (IH conv' eq_refl).
      destruct (keep_all (unfiltered config) rest) as [e | kept]; simpl in *;
        [discriminate IH |].
      injection IH as ->. reflexivity.
Qed.

(** X13.  Filtering during the build and filtering afterwards agree: the
    dataset built with a configuration is the dataset built without any
    predicate, filtered by that configuration. *)
Theorem X13_filter_after_build (source : Source) config records ds0 ds :
  source "nimashoghi/mptrj"%string (split config) = ok records →
  create_dataset source (unfiltered config) = ok ds0 →
  create_dataset source config = ok ds →
  atoms_list ds = filter (passes config) (atoms_list ds0).
Proof.
  intros Hsrc Hds0 Hds.
  destruct (create_dataset_ok source (unfiltered config) records ds0 Hsrc Hds0)
    as (converted0 & Hconv0 & Hl0).
  destruct (create_dataset_ok source config records ds Hsrc Hds)
    as (converted & Hconv & Hl).
  rewrite filter_all in Hl0 by apply passes_unfiltered.
  rewrite Hconv in Hconv0. injection Hconv0 as <-.
  rewrite Hl, Hl0. reflexivity.
Qed.

(** X7.  A build that completes has advanced the progress bar once per raw
    record, dropped records included, and closed it: the counter ends at the
    total, which is the number of records.  The dataset remembers the
    configuration it was built from. *)
Theorem X7_progress_bar (source : Source) cfg records ds pbar :
  source "nimashoghi/mptrj"%string (split cfg) = ok records →
  __init__ source cfg = ok (ds, pbar) →
  total pbar = length records ∧
  n pbar = length records ∧
  closed pbar = true ∧
  config ds = cfg.
Proof.
  intros Hsrc H. rewrite init_eq, Hsrc in H. simpl in H.
  apply bind_ok_inv in H as (kept & _ & H). injection H as <- <-.
  simpl. repeat split.
Qed.

Lemma py_getitem_elem_of {A} (l : list A) idx x :
  py_getitem l idx = ok x → x ∈ l.
Proof.
  unfold py_getitem. intros H.
  repeat case_bool_decide; try discriminate H;
    match type of H with
    | context [l !! ?i] =>
        destruct (l !! i) as [y |] eqn:Hy; [| discriminate H]
    end;
    injection H as <-; eapply list_elem_of_lookup_2, Hy.
Qed.

(** X8.  Whatever index is used, a structure retrieved from a built dataset
    passes the filter of the configuration and is the conversion of one of
    the raw records. *)
Theorem X8_retrieved_structure (source : Source) cfg records ds idx atoms :
  source "nimashoghi/mptrj"%string (split cfg) = ok records →
  create_dataset source cfg = ok ds →
  (__getitem__ ds idx).1 = ok atoms →
  _filter_atoms cfg atoms = ok true ∧
  ∃ entry, entry ∈ records ∧ _load_atoms_from_entry entry = ok atoms.
Proof.
  intros Hsrc Hds Hget. unfold __getitem__ in Hget. simpl in Hget.
  apply py_getitem_elem_of in Hget.
  destruct (create_dataset_ok _ _ _ _ Hsrc Hds) as (converted & Hconv & Hl).
  rewrite Hl in Hget. apply list_elem_of_filter in Hget as [Hp Hin].
  split; [exact Hp |].
  apply traverse_ok_Forall2 in Hconv.
  apply list_elem_of_lookup in Hin as [i Hi].
  destruct (Forall2_lookup_r _ _ _ _ _ Hconv Hi) as (entry & Hentry & Hload).
  exists entry. split; [eapply list_elem_of_lookup_2, Hentry | exact Hload].
Qed.

(** X9.  Reading the indices 0, 1, ..., L-1 in turn returns the stored
    structures in order, none failing, and each non-negative index [idx] has
    the negative alias [idx - L] that returns the same structure. *)
Theorem X9_index_enumeration (ds : MPTrajDataset) :
  (λ i : nat, (__getitem__ ds (Z.of_nat i)).1)
    <$> seq 0 (length (atoms_list ds)) = ok <$> atoms_list ds ∧
  (∀ idx, 0 ≤ idx < (__len__ ds).1 →
     (__getitem__ ds (idx - (__len__ ds).1)).1 = (__getitem__ ds idx).1).
Proof.
  unfold __getitem__, __len__. simpl. split.
  - apply list_eq. intros i. rewrite !list_lookup_fmap.
    destruct (decide (i < length (atoms_list ds))%nat) as [Hi | Hi].
    + rewrite lookup_seq_lt by exact Hi. simpl.
      destruct (py_getitem_front (atoms_list ds) (Z.of_nat i)) as (x & Hx & Hg);
        [lia |].
      rewrite Nat2Z.id in Hx. rewrite Hg, Hx. reflexivity.
    + rewrite lookup_seq_ge by lia.
      rewrite lookup_ge_None_2 by lia. reflexivity.
  - intros idx Hidx.
    destruct (py_getitem_front (atoms_list ds) idx Hidx) as (x & Hx & Hg).
    destruct (py_getitem_back (atoms_list ds)
                (idx - Z.of_nat (length (atoms_list ds)))) as (y & Hy & Hg');
      [lia |].
    rewrite Hg, Hg'. f_equal.
    replace (Z.of_nat (length (atoms_list ds)) +
             (idx - Z.of_nat (length (atoms_list ds)))) with idx in Hy by lia.
    rewrite Hx in Hy. injection Hy as <-. reflexivity.
Qed.

(** ** Splitting, reordering and replaying the stream *)

Lemma keep_all_app config r1 r2 :
  keep_all config (r1 ++ r2) =
    bind (keep_all config r1)
         (λ k1, bind (keep_all config r2) (λ k2, ok (k1 ++ k2))).
Proof.
  induction r1 as [| entry rest IH]; simpl.
  - destruct (keep_all config r2); reflexivity.
  - destruct (_load_atoms_from_entry entry) as [e | atoms]; simpl; [reflexivity |].
    destruct (_filter_atoms config atoms) as [e | keep]; simpl; [reflexivity |].
    rewrite IH.
    destruct (keep_all config rest) as [e | k1]; simpl; [reflexivity |].
    destruct (keep_all config r2) as [e | k2]; simpl; [reflexivity |].
    destruct keep; reflexivity.
Qed.

(** X10.  Building from two streams put end to end is building from each
    and concatenating: the result holds the structures of the first dataset
    followed by those of the second, and it fails with the error of the first
    part when that part fails, otherwise with the error of the second. *)
Theorem X10_concatenation (s1 s2 s12 : Source) cfg r1 r2 :
  s1 "nimashoghi/mptrj"%string (split cfg) = ok r1 →
  s2 "nimashoghi/mptrj"%string (split cfg) = ok r2 →
  s12 "nimashoghi/mptrj"%string (split cfg) = ok (r1 ++ r2) →
  create_dataset s12 cfg =
    bind (create_dataset s1 cfg)
         (λ ds1, bind (create_dataset s2 cfg)
                      (λ ds2, ok {| config := cfg;
                                    atoms_list := atoms_list ds1 ++ atoms_list ds2 |})).
Proof.
  intros H1 H2 H12. rewrite !create_dataset_eq, H1, H2, H12. simpl.
  rewrite keep_all_app.
  destruct (keep_all cfg r1) as [e | k1]; simpl; [reflexivity |].
  destruct (keep_all cfg r2) as [e | k2]; reflexivity.
Qed.

Lemma keep_all_perm config r r' :
  r ≡ₚ r' →
  ∀ kept, keep_all config r = ok kept →
          ∃ kept', keep_all config r' = ok kept' ∧ kept ≡ₚ kept'.
Proof.
  induction 1 as [| x l l' _ IH | x y l | l1 l2 l3 _ IH12 _ IH23];
    intros kept H.
  - exists kept. split; [exact H | reflexivity].
  - simpl in H.
    apply bind_ok_inv in H as (a & Ha & H).
    apply bind_ok_inv in H as (k & Hk & H).
    apply bind_ok_inv in H as (kl & Hkl & H). injection H as <-.
    destruct (IH kl Hkl) as (kl' & Hkl' & Hperm).
    simpl. rewrite Ha. simpl. rewrite Hk. simpl. rewrite Hkl'. simpl.
    eexists. split; [reflexivity |].
    destruct k; [by constructor | exact Hperm].
  - simpl in H.
    apply bind_ok_inv in H as (ay & Hay & H).
    apply bind_ok_inv in H as (ky & Hky & H).
    apply bind_ok_inv in H as (k1 & H1 & H). injection H as <-.
    apply bind_ok_inv in H1 as (ax & Hax & H1).
    apply bind_ok_inv in H1 as (kx & Hkx & H1).
    apply bind_ok_inv in H1 as (kl & Hkl & H1). injection H1 as <-.
    simpl. rewrite Hax. simpl. rewrite Hkx. simpl.
    rewrite Hay. simpl. rewrite Hky. simpl. rewrite Hkl. simpl.
    eexists. split; [reflexivity |].
    destruct kx, ky; try reflexivity. apply Permutation_swap.
  - destruct (IH12 kept H) as (k2 & H2 & Hp12).
    destruct (IH23 k2 H2) as (k3 & H3 & Hp23).
    exists k3. split; [exact H3 | by etrans].
Qed.

(** X11.  Reordering the raw records reorders the dataset and nothing more:
    if a build succeeds, the build from any permutation of the same records
    succeeds too, and the two datasets hold the same structures with the same
    multiplicities, hence have the same length. *)
Theorem X11_permutation (s s' : Source) cfg r r' ds :
  s "nimashoghi/mptrj"%string (split cfg) = ok r →
  s' "nimashoghi/mptrj"%string (split cfg) = ok r' →
  r ≡ₚ r' →
  create_dataset s cfg = ok ds →
  ∃ ds', create_dataset s' cfg = ok ds' ∧
         atoms_list ds ≡ₚ atoms_list ds' ∧
         (__len__ ds).1 = (__len__ ds').1.
Proof.
  intros Hs Hs' Hperm Hds. rewrite create_dataset_eq, Hs in Hds. simpl in Hds.
  apply bind_ok_inv in Hds as (kept & Hkept & Hds). injection Hds as <-.
  destruct (keep_all_perm cfg r r' Hperm kept Hkept) as (kept' & Hkept' & Hp).
  exists {| config := cfg; atoms_list := kept' |}.
  rewrite create_dataset_eq, Hs'. simpl. rewrite Hkept'. simpl.
  split; [reflexivity |]. split; [exact Hp |].
  unfold __len__. simpl. f_equal. apply Permutation_length, Hp.
Qed.

Lemma keep_all_replay config records kept :
  keep_all config records = ok kept →
  keep_all config (filter (λ entry, keeps config entry = true) records) = ok kept ∧
  length (filter (λ entry, keeps config entry = true) records) = length kept.
Proof.
  revert kept. induction records as [| entry rest IH]; intros kept H; simpl in H.
  - injection H as <-. split; reflexivity.
  - apply bind_ok_inv in H as (a & Ha & H).
    apply bind_ok_inv in H as (k & Hk & H).
    apply bind_ok_inv in H as (kl & Hkl & H). injection H as <-.
    destruct (IH kl Hkl) as [IHk IHlen].
    assert (Hkeeps : keeps config entry = k).
    { unfold keeps. rewrite Ha. simpl. rewrite Hk. reflexivity. }
    destruct k.
    + rewrite filter_cons_True by exact Hkeeps. simpl.
      rewrite Ha. simpl. rewrite Hk. simpl. rewrite IHk. simpl.
      split; [reflexivity | by rewrite IHlen].
    + rewrite filter_cons_False by (rewrite Hkeeps; discriminate).
      split; assumption.
Qed.

(** X12.  Dropping is final: rebuilding from only the raw records that were
    kept gives the same dataset, and the kept records are as many as the
    dataset is long. *)
Theorem X12_rebuild_from_kept (s s' : Source) cfg records ds :
  s "nimashoghi/mptrj"%string (split cfg) = ok records →
  s' "nimashoghi/mptrj"%string (split cfg) =
    ok (filter (λ entry, keeps cfg entry = true) records) →
  create_dataset s cfg = ok ds →
  create_dataset s' cfg = ok ds ∧
  Z.of_nat (length (filter (λ entry, keeps cfg entry = true) records))
    = (__len__ ds).1.
Proof.
  intros Hs Hs' Hds. rewrite create_dataset_eq, Hs in Hds. simpl in Hds.
  apply bind_ok_inv in Hds as (kept & Hkept & Hds). injection Hds as <-.
  destruct (keep_all_replay cfg records kept Hkept) as [Hreplay Hlen].
  rewrite create_dataset_eq, Hs'. simpl. rewrite Hreplay. simpl.
  split; [reflexivity |]. unfold __len__. simpl. by rewrite Hlen.
Qed.

Lemma keep_all_ok_iff config records :
  (∃ kept, keep_all config records = ok kept) ↔
  Forall (λ r, ∃ atoms keep, _load_atoms_from_entry r = ok atoms ∧
                             _filter_atoms config atoms = ok keep) records.
Proof.
  induction records as [| entry rest IH]; simpl.
  - split; [constructor | eauto].
  - split.
    + intros [kept H].
      apply bind_ok_inv in H as (a & Ha & H).
      apply bind_ok_inv in H as (k & Hk & H).
      apply bind_ok_inv in H as (kl & Hkl & H).
      constructor; [eauto | apply IH; eauto].
    + intros H. inversion H as [| ? ? (a & k & Ha & Hk) Hrest]; subst.
      apply IH in Hrest as [kl Hkl].
      rewrite Ha. simpl. rewrite Hk. simpl. rewrite Hkl. simpl. eauto.
Qed.

Lemma keep_all_filter_error config pre :
  ∀ entry post atoms e,
    Forall (λ r, ∃ atoms keep, _load_atoms_from_entry r = ok atoms ∧
                               _filter_atoms config atoms = ok keep) pre →
    _load_atoms_from_entry entry = ok atoms →
    _filter_atoms config atoms = raise e →
    keep_all config (pre ++ entry :: post) = raise e.
Proof.
  induction pre as [| r pre IH]; intros entry post atoms e Hpre Hload Hfil; simpl.
  - rewrite Hload. simpl. rewrite Hfil. reflexivity.
  - inversion Hpre as [| ? ? (a & k & Ha & Hk) Hpre']; subst.
    rewrite Ha. simpl. rewrite Hk. simpl.
    rewrite (IH entry post atoms e Hpre' Hload Hfil). reflexivity.
Qed.

(** X15.  A build succeeds exactly when every record converts and the
    filter returns a verdict on every converted structure.  An exception of
    the filter is as fatal as one of the conversion: the first record whose
    structure makes the filter raise aborts the build with that exception. *)
Theorem X15_build_succeeds_iff (source : Source) cfg records :
  source "nimashoghi/mptrj"%string (split cfg) = ok records →
  ((∃ ds, create_dataset source cfg = ok ds) ↔
   Forall (λ r, ∃ atoms keep, _load_atoms_from_entry r = ok atoms ∧
                              _filter_atoms cfg atoms = ok keep) records) ∧
  (∀ pre entry post atoms e,
     records = pre ++ entry :: post →
     Forall (λ r, ∃ atoms keep, _load_atoms_from_entry r = ok atoms ∧
                                _filter_atoms cfg atoms = ok keep) pre →
     _load_atoms_from_entry entry = ok atoms →
     _filter_atoms cfg atoms = raise e →
     create_dataset source cfg = raise e).
Proof.
  intros Hsrc. split.
  - rewrite <- keep_all_ok_iff, create_dataset_eq, Hsrc. simpl. split.
    + intros [ds H]. apply bind_ok_inv in H as (kept & Hkept & _). eauto.
    + intros [kept ->]. simpl. eauto.
  - intros pre entry post atoms e -> Hpre Hload Hfil.
    rewrite create_dataset_eq, Hsrc. simpl.
    rewrite (keep_all_filter_error cfg pre entry post atoms e Hpre Hload Hfil).
    reflexivity.
Qed.

(** ** Runs of the further properties on the sample records *)

Lemma X1_converted_structure_witness :
  _load_atoms_from_entry (sample_entry [3; 8]) = ok (sample_atoms [3; 8]) ∧
  length (positions (sample_atoms [3; 8])) = length (numbers (sample_atoms [3; 8])).
Proof.
  assert (H : _load_atoms_from_entry (sample_entry [3; 8]) = ok (sample_atoms [3; 8]))
    by (vm_compute; reflexivity).
  split; [exact H |].
  destruct (X1_converted_structure _ _ H) as (_ & Hlen & _). exact Hlen.
Defined.

Lemma X2_six_fields_read_witness :
  no_forces_entry !! "forces"%string = None ∧
  ∃ e, _load_atoms_from_entry no_forces_entry = raise e.
Proof.
  assert (H : no_forces_entry !! "forces"%string = None)
    by (vm_compute; reflexivity).
  split; [exact H |].
  destruct (X2_six_fields_read no_forces_entry) as (_ & Hmiss & _).
  apply (Hmiss "forces"%string); [| exact H].
  apply (bool_decide_unpack _). vm_compute. exact I.
Defined.

Lemma X3_count_checks_first_witness :
  len (sample_atoms [3]) < 5 ∧
  _filter_atoms default_config (sample_atoms [3]) = ok false.
Proof.
  assert (H : len (sample_atoms [3]) < 5) by (vm_compute; reflexivity).
  split; [exact H |].
  destruct (X3_count_checks_first default_config (sample_atoms [3])) as (Hdrop & _).
  apply Hdrop. left. exists 5. split; [reflexivity | exact H].
Defined.

Lemma X4_filter_raises_iff_witness :
  ¬ in_symbol_table 119 ∧
  _filter_atoms li_na_config (sample_atoms [119]) = raise IndexError.
Proof.
  assert (H : ¬ in_symbol_table 119) by (unfold in_symbol_table; lia).
  split; [exact H |].
  apply (proj2 (X4_filter_raises_iff li_na_config (sample_atoms [119]) IndexError)).
  split; [reflexivity |]. split; [eexists; reflexivity |].
  split; [intros m Hm; discriminate Hm |].
  split; [intros M HM; discriminate HM |].
  constructor. exact H.
Defined.

Lemma X5_looser_bounds_witness :
  _filter_atoms {| split := train; min_num_atoms := Some 5; max_num_atoms := None;
                   elements := None |} (sample_atoms (replicate 5 11)) = ok true ∧
  _filter_atoms {| split := train; min_num_atoms := Some 3; max_num_atoms := None;
                   elements := None |} (sample_atoms (replicate 5 11)) = ok true.
Proof.
  assert (H : _filter_atoms {| split := train; min_num_atoms := Some 5;
                               max_num_atoms := None; elements := None |}
                (sample_atoms (replicate 5 11)) = ok true)
    by (vm_compute; reflexivity).
  split; [exact H |].
  destruct (X5_looser_bounds (constant_source three_records) train
              (Some 5) None (Some 3) None None three_records) as (Hpass & _).
  - intros m' Hm'. injection Hm' as <-. exists 5. split; [reflexivity | lia].
  - intros M' HM'. discriminate HM'.
  - apply Hpass, H.
Defined.

Lemma X6_unfiltered_keeps_all_witness :
  create_dataset (constant_source three_records) (unfiltered default_config) =
    ok {| config := unfiltered default_config;
          atoms_list := [sample_atoms (replicate 3 3);
                         sample_atoms (replicate 5 11);
                         sample_atoms (replicate 10 8)] |}.
Proof.
  destruct (X6_unfiltered_keeps_all (constant_source three_records)
              default_config three_records eq_refl) as (_ & Hall).
  apply Hall. vm_compute. reflexivity.
Defined.

Lemma X7_progress_bar_witness :
  __init__ (constant_source three_records) default_config =
    ok (three_records_dataset, {| total := 3; n := 3; closed := true |}) ∧
  n {| total := 3; n := 3; closed := true |} = length three_records.
Proof.
  assert (H : __init__ (constant_source three_records) default_config =
                ok (three_records_dataset, {| total := 3; n := 3; closed := true |}))
    by (vm_compute; reflexivity).
  split; [exact H |].
  destruct (X7_progress_bar (constant_source three_records) default_config
              three_records _ _ eq_refl H) as (_ & Hn & _).
  exact Hn.
Defined.

Lemma X8_retrieved_structure_witness :
  (__getitem__ three_records_dataset (-1)).1 = ok (sample_atoms (replicate 10 8)) ∧
  _filter_atoms default_config (sample_atoms (replicate 10 8)) = ok true.
Proof.
  assert (H : (__getitem__ three_records_dataset (-1)).1
              = ok (sample_atoms (replicate 10 8))) by (vm_compute; reflexivity).
  split; [exact H |].
  destruct (X8_retrieved_structure (constant_source three_records) default_config
              three_records three_records_dataset (-1)
              (sample_atoms (replicate 10 8)) eq_refl three_records_build H)
    as (Hpass & _).
  exact Hpass.
Defined.

Lemma X9_index_enumeration_witness :
  0 ≤ 0 < (__len__ three_records_dataset).1 ∧
  (__getitem__ three_records_dataset (0 - (__len__ three_records_dataset).1)).1
    = (__getitem__ three_records_dataset 0).1.
Proof.
  assert (H : 0 ≤ 0 < (__len__ three_records_dataset).1) by (simpl; lia).
  split; [exact H |].
  destruct (X9_index_enumeration three_records_dataset) as (_ & Halias).
  exact (Halias 0 H).
Defined.

Lemma X10_concatenation_witness :
  create_dataset (constant_source three_records) default_config =
    bind (create_dataset (constant_source [sample_entry (replicate 3 3)])
            default_config)
         (λ ds1,
            bind (create_dataset
                    (constant_source [sample_entry (replicate 5 11);
                                      sample_entry (replicate 10 8)])
                    default_config)
                 (λ ds2, ok {| config := default_config;
                               atoms_list := atoms_list ds1 ++ atoms_list ds2 |})).
Proof.
  exact (X10_concatenation
           (constant_source [sample_entry (replicate 3 3)])
           (constant_source [sample_entry (replicate 5 11);
                             sample_entry (replicate 10 8)])
           (constant_source three_records) default_config
           [sample_entry (replicate 3 3)]
           [sample_entry (replicate 5 11); sample_entry (replicate 10 8)]
           eq_refl eq_refl eq_refl).
Defined.

Lemma X11_permutation_witness :
  ∃ ds', create_dataset
           (constant_source [sample_entry (replicate 5 11);
                             sample_entry (replicate 3 3);
                             sample_entry (replicate 10 8)]) default_config
         = ok ds' ∧
         atoms_list three_records_dataset ≡ₚ atoms_list ds' ∧
         (__len__ three_records_dataset).1 = (__len__ ds').1.
Proof.
  apply (X11_permutation (constant_source three_records) _ default_config
           three_records
           [sample_entry (replicate 5 11); sample_entry (replicate 3 3);
            sample_entry (replicate 10 8)] three_records_dataset).
  - reflexivity.
  - reflexivity.
  - apply Permutation_swap.
  - exact three_records_build.
Defined.

Lemma X12_rebuild_from_kept_witness :
  create_dataset
    (constant_source (filter (λ entry, keeps default_config entry = true)
                             three_records)) default_config
  = ok three_records_dataset.
Proof.
  destruct (X12_rebuild_from_kept (constant_source three_records)
              (constant_source (filter (λ entry, keeps default_config entry = true)
                                       three_records))
              default_config three_records three_records_dataset
              eq_refl eq_refl three_records_build) as (Hsame & _).
  exact Hsame.
Defined.

Lemma X13_filter_after_build_witness :
  atoms_list three_records_dataset =
    filter (passes default_config)
           [sample_atoms (replicate 3 3); sample_atoms (replicate 5 11);
            sample_atoms (replicate 10 8)].
Proof.
  apply (X13_filter_after_build (constant_source three_records) default_config
           three_records
           {| config := unfiltered default_config;
              atoms_list := [sample_atoms (replicate 3 3);
                             sample_atoms (replicate 5 11);
                             sample_atoms (replicate 10 8)] |}
           three_records_dataset).
  - reflexivity.
  - vm_compute. reflexivity.
  - exact three_records_build.
Defined.

Lemma X14_empty_element_list_witness :
  numbers (sample_atoms []) = [] ∧
  _filter_atoms {| split := train; min_num_atoms := None; max_num_atoms := None;
                   elements := Some [] |} (sample_atoms []) = ok true.
Proof.
  split; [reflexivity |].
  apply (proj2 (X14_empty_element_list
                  {| split := train; min_num_atoms := None; max_num_atoms := None;
                     elements := Some [] |} (sample_atoms []) eq_refl)).
  split; [intros m Hm; discriminate Hm |].
  split; [intros M HM; discriminate HM | reflexivity].
Defined.

Lemma X15_build_succeeds_iff_witness :
  _filter_atoms li_na_config (sample_atoms [119]) = raise IndexError ∧
  create_dataset (constant_source [sample_entry [3]; sample_entry [119]])
                 li_na_config = raise IndexError.
Proof.
  assert (H : _filter_atoms li_na_config (sample_atoms [119]) = raise IndexError)
    by (vm_compute; reflexivity).
  split; [exact H |].
  destruct (X15_build_succeeds_iff
              (constant_source [sample_entry [3]; sample_entry [119]])
              li_na_config [sample_entry [3]; sample_entry [119]] eq_refl)
    as (_ & Hfirst).
  apply (Hfirst [sample_entry [3]] (sample_entry [119]) [] (sample_atoms [119])).
  - reflexivity.
  - constructor; [| constructor].
    exists (sample_atoms [3]), true. split; vm_compute; reflexivity.
  - vm_compute. reflexivity.
  - exact H.
Defined.

Lemma X16_degenerate_bounds_witness :
  0 ≤ 0 ∧
  _filter_atoms {| split := train; min_num_atoms := Some 0; max_num_atoms := None;
                   elements := None |} (sample_atoms [3]) =
  _filter_atoms {| split := train; min_num_atoms := None; max_num_atoms := None;
                   elements := None |} (sample_atoms [3]).
Proof.
  assert (H : 0 ≤ 0) by lia.
  split; [exact H |].
  destruct (X16_degenerate_bounds train 0 0 None None None (sample_atoms [3]))
    as (Hmin & _).
  exact (Hmin H).
Defined.
